(** * Renewable-Energy-Forecasting-System: zone pipeline

    A shallow embedding of the batch pipeline of [src/src]:
    - [phase1_zones.py]         (module [Phase1]): octant labels of zones;
    - [phase2_weather.py]       (module [Phase2]): cleaning of hourly weather;
    - [phase3_pv_groundtruth.py](module [Phase3]): inverter fallback and
      daily aggregation;
    - [phase4_qaqc.py]          (module [Phase4QA]): zone-year rules and the
      zone summary;
    - [phase4_features.py]      (module [Phase4Features]): QA zone list,
      fallback to all zones, rolling statistics.

    Numbers.  The program computes with IEEE doubles; this development reads
    every finite double as the rational it denotes ([Q]) and a NaN / null
    cell as [None].  Comparisons are exact on such values; sums, products
    and quotients are the exact ones (rounding is not modelled). *)

From Stdlib Require Import QArith Qround ZArith List String Ascii Bool Lia Lqa.
From Stdlib Require Import DecimalString.
From stdpp Require Import gmap strings.
Import ListNotations.

Open Scope Q_scope.

(** ** Comparisons on doubles read as rationals *)

Definition Qleb (x y : Q) : bool := Qle_bool x y.
Definition Qltb (x y : Q) : bool := negb (Qle_bool y x).
Definition Qgeb (x y : Q) : bool := Qleb y x.
Definition Qgtb (x y : Q) : bool := Qltb y x.
Definition Qeqb (x y : Q) : bool := Qeq_bool x y.

(** A cell of a numeric column: [None] is NaN. *)
Abbreviation cell := (option Q).

(** ** The pandas / numpy operations the pipeline calls

    Each definition is the documented behaviour of the library call on the
    argument shapes the source passes to it. *)

Module Pd.

Definition Qsum (l : list Q) : Q := fold_right Qplus 0 l.

(** The non-null values of a column, in order ([dropna]). *)
Fixpoint dropna (l : list cell) : list Q :=
  match l with
  | [] => []
  | Some v :: r => v :: dropna r
  | None :: r => dropna r
  end.

Definition isna (l : list cell) : list bool :=
  List.map (fun c => match c with None => true | Some _ => false end) l.

Definition fillna (d : Q) (l : list cell) : list Q :=
  List.map (fun c => match c with None => d | Some v => v end) l.

(** [Series.mean()]: nulls are skipped, the mean of no value is NaN. *)
Definition mean_obs (obs : list Q) : Q :=
  Qsum obs / inject_Z (Z.of_nat (length obs)).

Definition mean (l : list cell) : cell :=
  match dropna l with
  | [] => None
  | obs => Some (mean_obs obs)
  end.

(** Population variance of the observations ([ddof=0]). *)
Definition var_obs (obs : list Q) : Q :=
  let m := mean_obs obs in
  Qsum (List.map (fun x => (x - m) * (x - m)) obs)
  / inject_Z (Z.of_nat (length obs)).

(** Stable insertion sort, as [sort_values] / [sort_index] use it. *)
Fixpoint insert_by {A : Type} (leb : A -> A -> bool) (x : A) (l : list A)
  : list A :=
  match l with
  | [] => [x]
  | y :: r => if leb x y then x :: y :: r else y :: insert_by leb x r
  end.

Fixpoint sort_by {A : Type} (leb : A -> A -> bool) (l : list A) : list A :=
  match l with
  | [] => []
  | x :: r => insert_by leb x (sort_by leb r)
  end.

(** [Series.quantile(q)] with the default linear interpolation: nulls are
    skipped; with [n] values sorted as [a], the result is
    [a[j] + (a[j+1] - a[j]) * g] where [q * (n-1) = j + g], [0 <= g < 1];
    NaN when no value is left. *)
Definition quantile_obs (q : Q) (obs : list Q) : Q :=
  let a := sort_by Qleb obs in
  let pos := q * inject_Z (Z.of_nat (length a - 1)) in
  let j := Qfloor pos in
  let g := pos - inject_Z j in
  let lo := nth (Z.to_nat j) a 0 in
  let hi := nth (S (Z.to_nat j)) a lo in
  lo + (hi - lo) * g.

Definition quantile (q : Q) (l : list cell) : cell :=
  match dropna l with
  | [] => None
  | obs => Some (quantile_obs q obs)
  end.

(** [Series.clip(lower, upper)] with scalar bounds: a NaN bound is no
    bound, two scalar bounds are first put in order, nulls stay null. *)
Definition clip_lower (lo : Q) (l : list cell) : list cell :=
  List.map (option_map (fun v => if Qltb v lo then lo else v)) l.

Definition clip_upper (hi : Q) (l : list cell) : list cell :=
  List.map (option_map (fun v => if Qltb hi v then hi else v)) l.

Definition clip1 (lo hi v : Q) : Q :=
  if Qltb v lo then lo else if Qltb hi v then hi else v.

Definition clip (lower upper : cell) (l : list cell) : list cell :=
  match lower, upper with
  | Some a, Some b =>
      let lo := if Qltb b a then b else a in
      let hi := if Qltb b a then a else b in
      List.map (option_map (clip1 lo hi)) l
  | Some a, None => clip_lower a l
  | None, Some b => clip_upper b l
  | None, None => l
  end.

(** [Series.ffill()]: a null takes the last non-null value before it. *)
Fixpoint ffill_from (last : cell) (l : list cell) : list cell :=
  match l with
  | [] => []
  | Some v :: r => Some v :: ffill_from (Some v) r
  | None :: r => last :: ffill_from last r
  end.

Definition ffill (l : list cell) : list cell := ffill_from None l.

(** [Series.where(cond)]: keep the value where [cond] holds, else null. *)
Fixpoint where_ (l : list cell) (cond : list bool) : list cell :=
  match l, cond with
  | x :: r, c :: cr => (if c then x else None) :: where_ r cr
  | _, _ => []
  end.

(** The rows of the window that ends at row [i]: rows [i-w+1 .. i]. *)
Definition window {A : Type} (w i : nat) (l : list A) : list A :=
  skipn (i + 1 - w) (firstn (i + 1) l).

(** [Series.rolling(w, min_periods=m).agg()]: per row, the aggregate of the
    non-null values of its window, NaN when fewer than [m] of them. *)
Definition rolling (w m : nat) (agg : list Q -> Q) (l : list cell)
  : list cell :=
  List.map (fun i =>
              let obs := dropna (window w i l) in
              if (m <=? length obs)%nat then Some (agg obs) else None)
           (seq 0 (length l)).

(** A boolean column read as the floats 1.0 / 0.0, as [rolling] does. *)
Definition bool_cells (l : list bool) : list cell :=
  List.map (fun b : bool => Some (if b then 1 else 0)) l.

End Pd.

(** ** Phase 1: [phase1_zones.py] *)

Module Phase1.

(** The guards of [to_octant], in the order of the source. *)
Definition in_E  (a : Q) : bool := Qleb (-22.5) a && Qltb a 22.5.
Definition in_NE (a : Q) : bool := Qleb 22.5 a && Qltb a 67.5.
Definition in_N  (a : Q) : bool := Qleb 67.5 a && Qltb a 112.5.
Definition in_NW (a : Q) : bool := Qleb 112.5 a && Qltb a 157.5.
Definition in_W  (a : Q) : bool := Qgeb a 157.5 || Qltb a (-157.5).
Definition in_SW (a : Q) : bool := Qleb (-157.5) a && Qltb a (-112.5).
Definition in_S  (a : Q) : bool := Qleb (-112.5) a && Qltb a (-67.5).
Definition in_SE (a : Q) : bool := Qleb (-67.5) a && Qltb a (-22.5).

(** [to_octant] (lines 83-100). *)
Definition to_octant (a : Q) : string :=
  if in_E a then "E"
  else if in_NE a then "NE"
  else if in_N a then "N"
  else if in_NW a then "NW"
  else if in_W a then "W"
  else if in_SW a then "SW"
  else if in_S a then "S"
  else if in_SE a then "SE"
  else "NA".

(** The eight angle ranges with their labels. *)
Definition octant_ranges : list (string * (Q -> bool)) :=
  [ ("E", in_E); ("NE", in_NE); ("N", in_N); ("NW", in_NW);
    ("W", in_W); ("SW", in_SW); ("S", in_S); ("SE", in_SE) ].

Definition region8_labels : list string :=
  List.map fst octant_ranges.

(** The labels of the ranges that contain [a]. *)
Definition covering (a : Q) : list string :=
  List.map fst (List.filter (fun r => snd r a) octant_ranges).

(** A zone as far as phase 1 labels it. *)
Record zone := mkZone {
  ZoneID : string;
  centroid_lat : Q;
  centroid_lon : Q
}.

Section Octants.
(** [np.degrees(np.arctan2(dy, dx))], a library function: its value lies
    in [-180, 180]; nothing below depends on which value it is. *)
Variable atan2_deg : Q -> Q -> Q.

(** [add_octant_labels] (lines 72-103): the [Region8] column. *)
Definition add_octant_labels (zones : list zone) : list (zone * string) :=
  let lat0 := Pd.mean_obs (List.map centroid_lat zones) in
  let lon0 := Pd.mean_obs (List.map centroid_lon zones) in
  List.map (fun z =>
              let dy := centroid_lat z - lat0 in
              let dx := centroid_lon z - lon0 in
              (z, to_octant (atan2_deg dy dx))) zones.
End Octants.

End Phase1.

(** ** Phase 2: [phase2_weather.py] *)

Module Phase2.

(** A data frame of numeric columns over an hourly index: the timestamps are
    whole hours (local civil time, as [fetch_power_hourly] builds them),
    the columns are kept by name in frame order. *)
Record frame := mkFrame {
  index : list Z;
  columns : list (string * list cell)
}.

(** The raw frame of one zone: [df.columns = ["ghi_wm2","t2m_c","ws10_ms"]]
    (line 43). *)
Definition raw_frame (idx : list Z) (ghi t2m ws : list cell) : frame :=
{| index := idx;
   columns := [("ghi_wm2", ghi); ("t2m_c", t2m); ("ws10_ms", ws)] |}.

(** [df[name]]: [None] is the KeyError. *)
Fixpoint get_col (name : string) (cols : list (string * list cell))
  : option (list cell) :=
match cols with
| [] => None
| (k, c) :: r => if String.eqb k name then Some c else get_col name r
end.

(** [df[name] = c]: replaces the column, or appends a new one. *)
Fixpoint set_col (name : string) (c : list cell)
    (cols : list (string * list cell)) : list (string * list cell) :=
match cols with
| [] => [(name, c)]
| (k, old) :: r =>
    if String.eqb k name then (k, c) :: r else (k, old) :: set_col name c r
end.

(** [df.drop(columns=[name])]. *)
Definition drop_col (name : string) (cols : list (string * list cell))
  : list (string * list cell) :=
List.filter (fun kc => negb (String.eqb (fst kc) name)) cols.

(** An operation applied to every column, as the frame methods do. *)
Definition map_cols (f : list cell -> list cell)
    (cols : list (string * list cell)) : list (string * list cell) :=
List.map (fun kc => (fst kc, f (snd kc))) cols.

(** [sort_index()]: the rows in the stable order of their labels. *)
Definition argsort (idx : list Z) : list nat :=
List.map snd
  (Pd.sort_by (fun a b : Z * nat => (fst a <=? fst b)%Z)
              (List.combine idx (seq 0 (length idx)))).

Definition take_rows {A : Type} (d : A) (ord : list nat) (l : list A)
  : list A :=
List.map (fun i => nth i l d) ord.

Definition sort_index (df : frame) : frame :=
let ord := argsort (index df) in
{| index := take_rows 0%Z ord (index df);
   columns := map_cols (take_rows None ord) (columns df) |}.

(** [pd.date_range(lo, hi, freq="H")]. *)
Definition date_range (lo hi : Z) : list Z :=
List.map (fun k => (lo + Z.of_nat k)%Z) (seq 0 (Z.to_nat (hi - lo + 1))).

(** The row of label [t], if any. *)
Fixpoint position (t : Z) (idx : list Z) : option nat :=
match idx with
| [] => None
| u :: r => if (u =? t)%Z then Some O else option_map S (position t r)
end.

Fixpoint has_duplicates (idx : list Z) : bool :=
match idx with
| [] => false
| u :: r => existsb (Z.eqb u) r || has_duplicates r
end.

(** [reindex(dti)] of one column: the value at the label, null at a label
    the frame does not have. *)
Definition reindex (idx : list Z) (dti : list Z) (c : list cell) : list cell :=
List.map (fun t => match position t idx with
                   | Some p => nth p c None
                   | None => None
                   end) dti.

(** [asfreq("H")]: an empty frame is returned as it is; otherwise the frame
    is reindexed to every hour from the smallest to the largest label, which
    raises (here [None]) when a label occurs twice. *)
Definition asfreq_H (df : frame) : option frame :=
match index df with
| [] => Some df
| t :: ts =>
    let dti := date_range (fold_right Z.min t ts) (fold_right Z.max t ts) in
    if has_duplicates (index df) then None
    else Some {| index := dti;
                 columns := map_cols (reindex (index df) dti) (columns df) |}
end.

(** [df.isna().rolling(3).sum().fillna(0) <= 3] on one column (line 52). *)
Definition small_gap (c : list cell) : list bool :=
List.map (fun v => Qleb v 3)
         (Pd.fillna 0 (Pd.rolling 3 3 Pd.Qsum (Pd.bool_cells (Pd.isna c)))).

(** [df.ffill().where(small_gap)] on one column (line 53). *)
Definition fill_gaps (c : list cell) : list cell :=
Pd.where_ (Pd.ffill c) (small_gap c).

(** The robust clip of one column (lines 61-62). *)
Definition winsorize (c : list cell) : list cell :=
Pd.clip (Pd.quantile 0.01 c) (Pd.quantile 0.99 c) c.

Definition winsorize_cols (names : list string)
    (cols : list (string * list cell)) : option (list (string * list cell)) :=
fold_left (fun acc col =>
             cs ← acc;
             c ← get_col col cs;
             Some (set_col col (winsorize c) cs))
          names (Some cols).

(** [clean_hourly] (lines 49-63); [None] when it raises.  The factor of
    line 57 is the double 1.0, the number 1. *)
Definition clean_hourly (df : frame) : option frame :=
df ← asfreq_H (sort_index df);
let cols := map_cols fill_gaps (columns df) in
g ← get_col "ghi_wm2" cols;
let cols := set_col "ghi_wm2" (Pd.clip_lower 0 g) cols in
g ← get_col "ghi_wm2" cols;
let cols := set_col "ghi_whm2" (List.map (option_map (fun v => v * 1)) g) cols in
let cols := drop_col "ghi_wm2" cols in
cols ← winsorize_cols ["ghi_whm2"; "t2m_c"; "ws10_ms"] cols;
Some {| index := index df; columns := cols |}.

(** A cleaned frame offered to [clean_hourly] again: the irradiance column
    under the name the function reads. *)
Definition as_raw (df : frame) : frame :=
{| index := index df;
   columns := List.map (fun kc => if String.eqb (fst kc) "ghi_whm2"
                                  then ("ghi_wm2", snd kc) else kc)
                       (columns df) |}.

End Phase2.

(** ** Phase 3: [phase3_pv_groundtruth.py] *)

Module Phase3.

Definition SYSTEM_KW_DC : Q := 10.0.
Definition PVWATTS_INV_EFF : Q := 0.96.

(** [np.clip(x, lo, hi)] is [np.minimum(np.maximum(x, lo), hi)]. *)
Definition np_maximum (x y : Q) : Q := if Qltb x y then y else x.
Definition np_minimum (x y : Q) : Q := if Qltb y x then y else x.
Definition np_clip (x lo hi : Q) : Q := np_minimum (np_maximum x lo) hi.

(** The fallback branch of [_pvwatts_ac_robust] (lines 41-45). *)
Definition pvwatts_ac_fallback (pdc : list cell) (pdc0_w eta_inv_nom : Q)
  : list cell :=
  let pac := List.map (option_map (fun p => eta_inv_nom * p)) pdc in
  List.map (option_map (fun p => np_clip p 0 (eta_inv_nom * pdc0_w))) pac.

(** [_pvwatts_ac_robust] (lines 27-45).  [preferred] is
    [pvlib.inverter.pvwatts] when the installed pvlib has it; a call that
    raises ([None]) is caught and the fallback is taken. *)
Definition _pvwatts_ac_robust
    (preferred : option (list cell -> Q -> Q -> option (list cell)))
    (pdc : list cell) (pdc0_w eta_inv_nom : Q) : list cell :=
  match preferred with
  | Some pvwatts =>
      match pvwatts pdc pdc0_w eta_inv_nom with
      | Some pac => pac
      | None => pvwatts_ac_fallback pdc pdc0_w eta_inv_nom
      end
  | None => pvwatts_ac_fallback pdc pdc0_w eta_inv_nom
  end.

(** Hourly AC power of one zone: local civil time in whole hours since a
    local midnight (Asia/Kolkata has no clock changes), power in W. *)
Definition series := list (Z * cell).

(** The local calendar day of an hour. *)
Definition day_of (t : Z) : Z := (t / 24)%Z.

(** The bins of [resample("D")]: every day from the first to the last
    timestamp. *)
Definition day_bins (times : list Z) : list Z :=
  match times with
  | [] => []
  | t :: ts =>
      let lo := day_of (fold_right Z.min t ts) in
      let hi := day_of (fold_right Z.max t ts) in
      List.map (fun k => (lo + Z.of_nat k)%Z)
               (seq 0 (Z.to_nat (hi - lo + 1)))
  end.

(** The non-null readings of day [d]. *)
Definition valid_in_day (s : series) (d : Z) : list Q :=
  Pd.dropna
    (List.map snd (List.filter (fun r => (day_of (fst r) =? d)%Z) s)).

(** [.sum(min_count=k)]: NaN unless at least [k] non-null values. *)
Definition sum_min_count (k : nat) (vals : list Q) : cell :=
  if (k <=? length vals)%nat then Some (Pd.Qsum vals) else None.

(** [pac_w.resample("D").sum(min_count=20) / 1000.0] (lines 94-98). *)
Definition daily_kwh (pac_w : series) : list (Z * cell) :=
  List.map (fun d =>
              (d, option_map (fun e => e / 1000.0)
                    (sum_min_count 20 (valid_in_day pac_w d))))
           (day_bins (List.map fst pac_w)).

(** A row of the daily energy table. *)
Record daily_row := mkDaily {
  ZoneID : string;
  date : Z;
  energy_kwh : Q
}.

Definition daily_row_leb (a b : daily_row) : bool :=
  if String.eqb (ZoneID a) (ZoneID b) then (date a <=? date b)%Z
  else String.leb (ZoneID a) (ZoneID b).

(** [df_daily.insert(0, "ZoneID", zid)]. *)
Definition zone_rows (zid : string) (l : list (Z * cell))
  : list (string * Z * cell) :=
  List.map (fun de => (zid, fst de, snd de)) l.

(** [dropna(subset=["energy_kwh"])]. *)
Fixpoint dropna_energy (l : list (string * Z * cell)) : list daily_row :=
  match l with
  | [] => []
  | (zid, d, Some e) :: r => mkDaily zid d e :: dropna_energy r
  | (_, _, None) :: r => dropna_energy r
  end.

(** The table [main] writes (lines 107-146), from the AC power series of
    the zones that were simulated: concat, dropna, sort. *)
Definition daily_energy (zones : list (string * series)) : list daily_row :=
  Pd.sort_by daily_row_leb
    (dropna_energy
       (List.concat
          (List.map (fun zs => zone_rows (fst zs) (daily_kwh (snd zs)))
                    zones))).

End Phase3.

(** ** Calendar dates, as the stages of phase 4 read them *)

Record date := mkDate { year : Z; month : Z; day : Z }.

#[global] Instance date_eq_dec : EqDecision date.
Proof. solve_decision. Defined.

Definition date_leb (a b : date) : bool :=
  if (year a =? year b)%Z then
    if (month a =? month b)%Z then (day a <=? day b)%Z
    else (month a <=? month b)%Z
  else (year a <=? year b)%Z.

(** A row of [daily_energy.parquet]: no null energy is left in it. *)
Record de_row := mkDe {
  de_zone : string;
  de_date : date;
  de_kwh : Q
}.

(** ** Phase 4: [phase4_qaqc.py] *)

Module Phase4QA.

Definition SYSTEM_KW : Q := 10.0.

Record thresholds := mkTh {
  min_days : Z;
  max_zero_days : Z;
  cap_factor_lo : Q;
  cap_factor_hi : Q;
  mean_kwh_lo : Q;
  mean_kwh_hi : Q
}.

Definition TH_FULL : thresholds :=
  {| min_days := 330; max_zero_days := 40;
     cap_factor_lo := 0.12; cap_factor_hi := 0.28;
     mean_kwh_lo := 5; mean_kwh_hi := 60 |}.

Definition FULL_YEAR_DAY_MIN : Z := 360.

(** What [agg] returns for one zone-year group (lines 30-43). *)
Record zy_agg := mkAgg {
  zone : string;
  yr : Z;
  days : Z;
  zero_days : Z;
  annual_kwh : Q;
  cap_factor : Q;
  mean_kwh : Q;
  p5 : Q;
  p95 : Q
}.

Definition agg (z : string) (y : Z) (g : list de_row) : zy_agg :=
  let e := List.map de_kwh g in
  let annual := Pd.Qsum e in
  {| zone := z; yr := y;
     days := Z.of_nat (length (remove_dups (List.map de_date g)));
     zero_days :=
       Z.of_nat (length (List.filter (fun x => Qleb x 0.01) e));
     annual_kwh := annual;
     cap_factor := annual / (SYSTEM_KW * 24 * 365);
     mean_kwh := Pd.mean_obs e;
     p5 := Pd.quantile_obs 0.05 e;
     p95 := Pd.quantile_obs 0.95 e |}.

Definition key_leb (a b : string * Z) : bool :=
  if String.eqb (fst a) (fst b) then (snd a <=? snd b)%Z
  else String.leb (fst a) (fst b).

(** [de.groupby(["ZoneID", "year"]).apply(agg)]: one row per key that
    occurs, keys in sorted order. *)
Definition stats (de : list de_row) : list zy_agg :=
  let keys :=
    Pd.sort_by key_leb
      (remove_dups (List.map (fun r => (de_zone r, year (de_date r))) de)) in
  List.map (fun k =>
              agg (fst k) (snd k)
                  (List.filter
                     (fun r => String.eqb (de_zone r) (fst k)
                               && (year (de_date r) =? snd k)%Z) de))
           keys.

(** [Series.between(lo, hi)]: both ends included. *)
Definition between (lo hi x : Q) : bool := Qleb lo x && Qleb x hi.

(** A row of the per zone-year detail table, rule columns included. *)
Record zy_row := mkRow {
  stat : zy_agg;
  is_full_year : bool;
  ok_days : bool;
  ok_zero_days : bool;
  ok_cf : bool;
  ok_mean : bool;
  qa_pass_year : bool
}.

(** The rule booleans (lines 49-57). *)
Definition rules (a : zy_agg) : zy_row :=
  let okd := (min_days TH_FULL <=? days a)%Z in
  let okz := (zero_days a <=? max_zero_days TH_FULL)%Z in
  let okc :=
    between (cap_factor_lo TH_FULL) (cap_factor_hi TH_FULL) (cap_factor a) in
  let okm :=
    between (mean_kwh_lo TH_FULL) (mean_kwh_hi TH_FULL) (mean_kwh a) in
  {| stat := a;
     is_full_year := (FULL_YEAR_DAY_MIN <=? days a)%Z;
     ok_days := okd; ok_zero_days := okz; ok_cf := okc; ok_mean := okm;
     qa_pass_year := forallb (fun b : bool => b) [okd; okz; okc; okm] |}.

Definition qa_detail (de : list de_row) : list zy_row :=
  List.map rules (stats de).

(** A row of the zone summary. *)
Record zone_row := mkZoneRow {
  zs_zone : string;
  n_years : nat;
  n_full_years : nat;
  n_full_pass : nat;
  qa_pass_zone : bool;
  latest_full_year : option Z;
  latest_full_year_pass : option bool
}.

Definition rows_of (z : string) (s : list zy_row) : list zy_row :=
  List.filter (fun r => String.eqb (zone (stat r)) z) s.

(** The group keys of [groupby("ZoneID")], sorted. *)
Definition zones_of (s : list zy_row) : list string :=
  Pd.sort_by String.leb (remove_dups (List.map (fun r => zone (stat r)) s)).

(** Sum of a boolean column. *)
Definition count_true (l : list bool) : nat :=
  length (List.filter (fun b : bool => b) l).

(** [full.groupby("ZoneID").agg(n_full_pass=("qa_pass_year","sum"))]:
    rows only for the zones that have a full year. *)
Definition full_pass_table (full : list zy_row) : list (string * nat) :=
  List.map (fun z => (z, count_true (List.map qa_pass_year (rows_of z full))))
           (zones_of full).

(** The right-hand value of a left merge on [ZoneID]: null when the zone
    has no row on the right. *)
Fixpoint merge_left {A : Type} (z : string) (t : list (string * A))
  : option A :=
  match t with
  | [] => None
  | (k, v) :: r => if String.eqb k z then Some v else merge_left z r
  end.

(** [full.sort_values(["ZoneID","year"]).groupby("ZoneID").tail(1)]. *)
Definition recent_full (full : list zy_row) : list (string * (Z * bool)) :=
  List.flat_map
    (fun z =>
       match rev (Pd.sort_by (fun a b => (yr (stat a) <=? yr (stat b))%Z)
                             (rows_of z full)) with
       | [] => []
       | r :: _ => [(z, (yr (stat r), qa_pass_year r))]
       end)
    (zones_of full).

(** The zone summary (lines 62-82). *)
Definition zone_summary (s : list zy_row) : list zone_row :=
  let full := List.filter is_full_year s in
  let passes := full_pass_table full in
  let recent := recent_full full in
  List.map
    (fun z =>
       let g := rows_of z s in
       let nfp :=
         match merge_left z passes with Some n => n | None => O end in
       {| zs_zone := z;
          n_years := length (remove_dups (List.map (fun r => yr (stat r)) g));
          n_full_years := count_true (List.map is_full_year g);
          n_full_pass := nfp;
          qa_pass_zone := (0 <? nfp)%nat;
          latest_full_year := option_map fst (merge_left z recent);
          latest_full_year_pass := option_map snd (merge_left z recent) |})
    (zones_of s).

(** The console summary (lines 90-98): zones passing, and zones with no
    full year, which the stage reports as neither passing nor failing. *)
Definition n_pass (summary : list zone_row) : nat :=
  count_true (List.map qa_pass_zone summary).

Definition n_full0 (summary : list zone_row) : nat :=
  length (List.filter (fun r => (n_full_years r =? 0)%nat) summary).

End Phase4QA.

(** ** Phase 4: [phase4_features.py] *)

Module Phase4Features.

(** *** String methods used on the QA flag *)

(** [str.lower()] on ASCII letters. *)
Definition lower_ascii (c : ascii) : ascii :=
let n := nat_of_ascii c in
if (65 <=? n)%nat && (n <=? 90)%nat then ascii_of_nat (n + 32) else c.

Fixpoint lower (s : string) : string :=
match s with
| EmptyString => EmptyString
| String c r => String (lower_ascii c) (lower r)
end.






(** *** The QA tables the stage may find on disk *)

(** A column by dtype.  An object column is given by the [str()] of its
    values, a missing value by [None] (its [str()] is ["nan"]). *)
Inductive column :=
| ColBool (l : list bool)
| ColInt (l : list Z)
| ColFloat (l : list cell)
| ColObj (l : list (option string)).



Fixpoint get_col (name : string) (l : list (string * column))
  : option column :=
match l with
| [] => None
| (k, c) :: r => if String.eqb k name then Some c else get_col name r
end.













(** *** Rolling features *)

(** The result of a float division: IEEE division by zero does not raise,
    it yields an infinity or (for 0/0) a NaN; [DivByZero] marks both. *)
Inductive quotient :=
| Fin (q : Q)
| DivByZero
| Null.

Definition cell_sub (a b : cell) : cell :=
match a, b with
| Some x, Some y => Some (x - y)
| _, _ => None
end.

Definition cell_div (a b : cell) : quotient :=
match a, b with
| Some x, Some d => if Qeqb d 0 then DivByZero else Fin (x / d)
| _, _ => Null
end.

(** [Series.replace(0, np.nan)]. *)
Definition replace_zero (l : list cell) : list cell :=
List.map (fun c => match c with
                   | Some q => if Qeqb q 0 then None else Some q
                   | None => None
                   end) l.

Fixpoint zip_with {A B C : Type} (f : A -> B -> C) (l : list A) (r : list B)
  : list C :=
match l, r with
| x :: l', y :: r' => f x y :: zip_with f l' r'
| _, _ => []
end.

(** The columns [_roll] adds to the rows of one zone. *)
Record roll_row := mkRoll {
  roll7_mean : cell;
  roll7_std : cell;
  roll7_z : quotient;
  roll30_mean : cell
}.

Section Rolling.
(** The square root of doubles, as [std] takes it of the variance. *)
Variable sqrt : Q -> Q.

Definition std_obs (obs : list Q) : Q := sqrt (Pd.var_obs obs).

Definition roll7_mean_col (s : list cell) : list cell :=
Pd.rolling 7 3 Pd.mean_obs s.

Definition roll7_std_col (s : list cell) : list cell :=
Pd.rolling 7 3 std_obs s.

(** The divisor of the z-score: [g["roll7_std"].replace(0, np.nan)]. *)
Definition roll7_divisor (s : list cell) : list cell :=
replace_zero (roll7_std_col s).

Definition roll7_z_col (s : list cell) : list quotient :=
zip_with cell_div (zip_with cell_sub s (roll7_mean_col s)) (roll7_divisor s).

Definition roll30_mean_col (s : list cell) : list cell :=
Pd.rolling 30 10 Pd.mean_obs s.

(** [_roll] (lines 85-93) on the energy column of one zone, sorted by
    date. *)
Definition _roll (energy : list Q) : list roll_row :=
let s := List.map Some energy in
zip_with (fun mz sm => mkRoll (fst mz) (fst sm) (snd mz) (snd sm))
         (List.combine (roll7_mean_col s) (roll7_z_col s))
         (List.combine (roll7_std_col s) (roll30_mean_col s)).

(** A row of the feature table.  The calendar columns [doy], [dow] and
    [is_weekend] are functions of the date alone and are left out. *)
Record feature_row := mkFeature {
  f_day : de_row;
  f_year : Z;
  f_month : Z;
  f_roll : roll_row;
  clim_month_kwh : Q;
  anom_month_kwh : Q
}.

Definition de_leb (a b : de_row) : bool :=
if String.eqb (de_zone a) (de_zone b) then date_leb (de_date a) (de_date b)
else String.leb (de_zone a) (de_zone b).

(** The rows of zone [z], in frame order. *)
Definition zone_group (z : string) (df : list de_row) : list de_row :=
List.filter (fun r => String.eqb (de_zone r) z) df.

(** [df.groupby(["ZoneID","month"])["energy_kwh"].mean()] at one key. *)
Definition clim_month (df : list de_row) (z : string) (m : Z) : Q :=
Pd.mean_obs
  (List.map de_kwh
     (List.filter (fun r => String.eqb (de_zone r) z
                            && (month (de_date r) =? m)%Z) df)).

(** [build_features] (lines 60-110): sort by zone and date, roll within
    each zone, join the monthly climatology. *)
Definition build_features (daily : list de_row) : list feature_row :=
let df := Pd.sort_by de_leb daily in
List.flat_map
  (fun z =>
     let g := zone_group z df in
     zip_with
       (fun r roll =>
          let clim := clim_month df z (month (de_date r)) in
          {| f_day := r;
             f_year := year (de_date r);
             f_month := month (de_date r);
             f_roll := roll;
             clim_month_kwh := clim;
             anom_month_kwh := de_kwh r - clim |})
       g (_roll (List.map de_kwh g)))
  (remove_dups (List.map de_zone df)).

End Rolling.

(** *** [main] (lines 113-139) *)





End Phase4Features.

(** * Properties *)

(** ** Reflection of the comparisons *)

Lemma Qleb_true (x y : Q) : Qleb x y = true <-> x <= y.
Proof. apply Qle_bool_iff. Qed.

Lemma Qleb_false (x y : Q) : Qleb x y = false <-> y < x.
Proof.
  unfold Qleb. split; intros H.
  - apply Qnot_le_lt. intros Hle. apply Qle_bool_iff in Hle. congruence.
  - destruct (Qle_bool x y) eqn:E; [|reflexivity].
    apply Qle_bool_iff in E. exfalso. apply (Qlt_not_le _ _ H E).
Qed.

Lemma Qltb_true (x y : Q) : Qltb x y = true <-> x < y.
Proof.
  unfold Qltb. rewrite negb_true_iff. apply (Qleb_false y x).
Qed.

Lemma Qltb_false (x y : Q) : Qltb x y = false <-> y <= x.
Proof.
  unfold Qltb. rewrite negb_false_iff. apply (Qleb_true y x).
Qed.

(** Decide one comparison of the goal and keep its meaning as a hypothesis. *)
Ltac qcase x y :=
  let E := fresh "E" in
  destruct (Qlt_le_dec x y) as [E|E];
  [ rewrite ?(proj2 (Qltb_true x y) E), ?(proj2 (Qleb_false y x) E)
  | rewrite ?(proj2 (Qltb_false x y) E), ?(proj2 (Qleb_true y x) E) ].

(** ** Phase 1: octants *)

Section OctantFacts.
Import Phase1.

Lemma covering_to_octant (a : Q) : covering a = [to_octant a].
Proof.
  unfold covering, to_octant, octant_ranges; simpl.
  unfold in_E, in_NE, in_N, in_NW, in_W, in_SW, in_S, in_SE, Qgeb.
  qcase a (-157.5); qcase a (-112.5); try (exfalso; lra);
  qcase a (-67.5); try (exfalso; lra);
  qcase a (-22.5); try (exfalso; lra);
  qcase a 22.5; try (exfalso; lra);
  qcase a 67.5; try (exfalso; lra);
  qcase a 112.5; try (exfalso; lra);
  qcase a 157.5; try (exfalso; lra);
  reflexivity.
Qed.

Lemma to_octant_label (a : Q) : In (to_octant a) region8_labels.
Proof.
  assert (H : In (to_octant a) (covering a))
    by (rewrite covering_to_octant; left; reflexivity).
  unfold covering in H. apply in_map_iff in H as [r [Hr Hin]].
  apply filter_In in Hin as [Hin _].
  rewrite <- Hr. unfold region8_labels. apply in_map. exact Hin.
Qed.

End OctantFacts.


(** C6.  Every zone gets exactly one region label, one of the eight octant
    labels (never the catch-all "NA"); every angle lies in exactly one of the
    eight half-open ranges, the one whose label [to_octant] returns, so the
    ranges cover the circle without gap or overlap; and the boundary angle
    22.5 belongs to "NE", not to "E". *)
Theorem octant_ranges_partition :
  (forall (atan2_deg : Q -> Q -> Q) (zones : list Phase1.zone),
      List.map fst (Phase1.add_octant_labels atan2_deg zones) = zones
      /\ Forall (fun zl => In (snd zl) Phase1.region8_labels)
                (Phase1.add_octant_labels atan2_deg zones))
  /\ (forall a : Q, Phase1.covering a = [Phase1.to_octant a])
  /\ NoDup Phase1.region8_labels
  /\ length Phase1.region8_labels = 8%nat
  /\ Phase1.to_octant 22.5 = "NE"%string
  /\ Phase1.in_E 22.5 = false.
Proof.
  split; [|split; [|split; [|split; [|split]]]].
  - intros atan2_deg zones. unfold Phase1.add_octant_labels. split.
    + rewrite List.map_map. simpl. apply List.map_id.
    + apply List.Forall_forall. intros zl Hin.
      apply in_map_iff in Hin as [z [Hz _]]. subst zl. simpl.
      apply to_octant_label.
  - exact covering_to_octant.
  - unfold Phase1.region8_labels; simpl.
    apply (bool_decide_unpack _). vm_compute. reflexivity.
  - reflexivity.
  - reflexivity.
  - reflexivity.
Qed.

(** ** Sorting keeps the rows *)

Lemma insert_by_perm {A : Type} (leb : A -> A -> bool) (x : A) (l : list A) :
  Permutation (Pd.insert_by leb x l) (x :: l).
Proof.
  induction l as [|y r IH]; simpl.
  - reflexivity.
  - destruct (leb x y).
    + reflexivity.
    + rewrite IH. apply perm_swap.
Qed.

Lemma sort_by_perm {A : Type} (leb : A -> A -> bool) (l : list A) :
  Permutation (Pd.sort_by leb l) l.
Proof.
  induction l as [|x r IH]; simpl.
  - reflexivity.
  - rewrite insert_by_perm. constructor. exact IH.
Qed.

Lemma sort_by_In {A : Type} (leb : A -> A -> bool) (l : list A) (x : A) :
  In x (Pd.sort_by leb l) <-> In x l.
Proof.
  split; apply Permutation_in;
    [apply sort_by_perm | symmetry; apply sort_by_perm].
Qed.

Lemma sort_by_length {A : Type} (leb : A -> A -> bool) (l : list A) :
  length (Pd.sort_by leb l) = length l.
Proof. apply Permutation_length, sort_by_perm. Qed.

(** ** Phase 3: the fallback inverter *)

Lemma np_clip_upper (x lo hi : Q) : Phase3.np_clip x lo hi <= hi.
Proof.
  unfold Phase3.np_clip, Phase3.np_minimum.
  destruct (Qltb hi (Phase3.np_maximum x lo)) eqn:E.
  - apply Qle_refl.
  - apply Qltb_false in E. exact E.
Qed.

Lemma np_clip_lower (x lo hi : Q) : lo <= hi -> lo <= Phase3.np_clip x lo hi.
Proof.
  intros Hle. unfold Phase3.np_clip, Phase3.np_minimum, Phase3.np_maximum.
  destruct (Qltb x lo) eqn:E1.
  - destruct (Qltb hi lo) eqn:E2; [exact Hle | apply Qle_refl].
  - apply Qltb_false in E1.
    destruct (Qltb hi x) eqn:E2; [exact Hle | exact E1].
Qed.

Lemma fallback_cells (pdc : list cell) (pdc0_w eta : Q) (v : Q) :
  In (Some v) (Phase3.pvwatts_ac_fallback pdc pdc0_w eta) ->
  exists p, In (Some p) pdc
            /\ v = Phase3.np_clip (eta * p) 0 (eta * pdc0_w).
Proof.
  unfold Phase3.pvwatts_ac_fallback. rewrite List.map_map. intros Hin.
  apply in_map_iff in Hin as [c [Hc Hin]].
  destruct c as [p|]; simpl in Hc; [|discriminate].
  exists p. split; [exact Hin | congruence].
Qed.

(** C9.  Every AC power value the fallback conversion returns is at most
    the ceiling [eta * pdc0], and at least 0 when the ceiling is not
    negative; with the constants of the reference system (0.96, 10000 W)
    every value lies in [0, 9600].  A null DC reading stays a null AC
    reading and nothing else becomes null. *)
Theorem fallback_ac_within_ceiling :
  (forall (pdc : list cell) (pdc0_w eta v : Q),
      In (Some v) (Phase3.pvwatts_ac_fallback pdc pdc0_w eta) ->
      v <= eta * pdc0_w /\ (0 <= eta * pdc0_w -> 0 <= v))
  /\ (forall (pdc : list cell) (v : Q),
         In (Some v)
            (Phase3._pvwatts_ac_robust None pdc
               (Phase3.SYSTEM_KW_DC * 1000) Phase3.PVWATTS_INV_EFF) ->
         0 <= v <= 9600)
  /\ (forall (pdc : list cell) (pdc0_w eta : Q),
         Pd.isna (Phase3.pvwatts_ac_fallback pdc pdc0_w eta) = Pd.isna pdc).
Proof.
  split; [|split].
  - intros pdc pdc0_w eta v Hin.
    apply fallback_cells in Hin as [p [_ ->]]. split.
    + apply np_clip_upper.
    + apply np_clip_lower.
  - intros pdc v Hin. simpl in Hin.
    apply fallback_cells in Hin as [p [_ ->]]. split.
    + apply np_clip_lower. vm_compute. discriminate.
    + eapply Qle_trans; [apply np_clip_upper|]. vm_compute. discriminate.
  - intros pdc pdc0_w eta. unfold Phase3.pvwatts_ac_fallback, Pd.isna.
    rewrite !List.map_map. apply List.map_ext. intros [p|]; reflexivity.
Qed.

Lemma fallback_ac_within_ceiling_witness :
  exists v : Q,
    In (Some v) (Phase3.pvwatts_ac_fallback [Some 20000; None; Some (-5)]
                                            10000 0.96)
    /\ v <= 0.96 * 10000 /\ 0 <= v.
Proof.
  eexists. split; [left; reflexivity|].
  destruct (proj1 fallback_ac_within_ceiling
              [Some 20000; None; Some (-5)] 10000 0.96 _
              (or_introl eq_refl)) as [Hup Hlo].
  split; [exact Hup | apply Hlo; vm_compute; discriminate].
Defined.

(** ** Phase 3: daily aggregation *)

Lemma fold_min_max_bounds (t0 : Z) (ts : list Z) (t : Z) :
  In t (t0 :: ts) ->
  (fold_right Z.min t0 ts <= t <= fold_right Z.max t0 ts)%Z.
Proof.
  induction ts as [|u r IH]; simpl.
  - intros [->|[]]. lia.
  - intros [->|[->|Hin]].
    + specialize (IH (or_introl eq_refl)). lia.
    + lia.
    + specialize (IH (or_intror Hin)). lia.
Qed.

Lemma day_bins_In (times : list Z) (d : Z) :
  In d (Phase3.day_bins times) <->
  match times with
  | [] => False
  | t :: ts =>
      (Phase3.day_of (fold_right Z.min t ts) <= d
       <= Phase3.day_of (fold_right Z.max t ts))%Z
  end.
Proof.
  destruct times as [|t ts]; simpl; [tauto|].
  rewrite in_map_iff. split.
  - intros [k [<- Hk]]. apply in_seq in Hk. lia.
  - intros Hd.
    exists (Z.to_nat (d - Phase3.day_of (fold_right Z.min t ts))). split.
    + lia.
    + apply in_seq. lia.
Qed.

Lemma dropna_In (l : list cell) (v : Q) : In v (Pd.dropna l) <-> In (Some v) l.
Proof.
  induction l as [|[x|] r IH]; simpl.
  - tauto.
  - rewrite IH. split; intros [H|H]; auto; left; congruence.
  - rewrite IH. split; [auto | intros [H|H]; [discriminate | exact H]].
Qed.

(** A day with a valid reading is one of the bins. *)
Lemma valid_day_in_bins (s : Phase3.series) (d : Z) :
  (0 < length (Phase3.valid_in_day s d))%nat ->
  In d (Phase3.day_bins (List.map fst s)).
Proof.
  intros Hlen. unfold Phase3.valid_in_day in Hlen.
  destruct (Pd.dropna _) as [|v vs] eqn:E; simpl in Hlen; [lia|].
  assert (Hv : In v (Pd.dropna
            (List.map snd
               (List.filter (fun r => (Phase3.day_of (fst r) =? d)%Z) s))))
    by (rewrite E; left; reflexivity).
  apply dropna_In in Hv. apply in_map_iff in Hv as [[t c] [Hc Hin]].
  apply filter_In in Hin as [Hin Hday]. simpl in *.
  apply Z.eqb_eq in Hday.
  assert (Ht : In t (List.map fst s)) by (apply (in_map fst _ _ Hin)).
  apply day_bins_In. destruct (List.map fst s) as [|t0 ts]; [destruct Ht|].
  pose proof (fold_min_max_bounds t0 ts t Ht) as [Hlo Hhi].
  subst d. unfold Phase3.day_of. split; apply Z.div_le_mono; lia.
Qed.

Lemma daily_kwh_In (s : Phase3.series) (d : Z) (e : Q) :
  In (d, Some e) (Phase3.daily_kwh s) <->
  (20 <= length (Phase3.valid_in_day s d))%nat
  /\ e = Pd.Qsum (Phase3.valid_in_day s d) / 1000.0.
Proof.
  unfold Phase3.daily_kwh, Phase3.sum_min_count. rewrite in_map_iff. split.
  - intros [d' [Heq _]].
    destruct (20 <=? length (Phase3.valid_in_day s d'))%nat eqn:E;
      simpl in Heq; [|discriminate].
    inversion Heq; subst. apply Nat.leb_le in E. split; [exact E | reflexivity].
  - intros [Hlen ->]. exists d. split.
    + apply Nat.leb_le in Hlen. rewrite Hlen. reflexivity.
    + apply valid_day_in_bins. lia.
Qed.

Lemma dropna_energy_In (l : list (string * Z * cell)) (z : string) (d : Z)
    (e : Q) :
  In (Phase3.mkDaily z d e) (Phase3.dropna_energy l) <-> In (z, d, Some e) l.
Proof.
  induction l as [|[[z' d'] [e'|]] r IH]; simpl.
  - tauto.
  - rewrite IH. split; intros [H|H]; auto; left; congruence.
  - rewrite IH. split; [auto | intros [H|H]; [discriminate | exact H]].
Qed.

Lemma daily_energy_In (zones : list (string * Phase3.series)) (z : string)
    (d : Z) (e : Q) :
  In (Phase3.mkDaily z d e) (Phase3.daily_energy zones) <->
  exists s, In (z, s) zones /\ In (d, Some e) (Phase3.daily_kwh s).
Proof.
  unfold Phase3.daily_energy.
  rewrite sort_by_In, dropna_energy_In, in_concat. split.
  - intros [rows [Hrows Hin]].
    apply in_map_iff in Hrows as [[z' s] [<- Hzs]].
    unfold Phase3.zone_rows in Hin. simpl in Hin.
    apply in_map_iff in Hin as [[d' c] [Heq Hin]]. simpl in Heq.
    inversion Heq; subst. exists s. split; assumption.
  - intros [s [Hzs Hin]].
    exists (Phase3.zone_rows z (Phase3.daily_kwh s)). split.
    + apply in_map_iff. exists (z, s). split; [reflexivity | exact Hzs].
    + unfold Phase3.zone_rows. apply in_map_iff.
      exists (d, Some e). split; [reflexivity | exact Hin].
Qed.

(** C7.  The daily energy table has a row for zone [z] and local day [d]
    exactly when [z] was simulated with at least 20 non-null hourly AC
    readings on [d]; its energy is then the sum of those readings over 1000.
    For a zone simulated once, a day with 19 valid readings has no row at
    all, neither with energy zero nor with any other value. *)
Theorem daily_row_iff_20_valid_hours :
  (forall (zones : list (string * Phase3.series)) (z : string) (d : Z)
          (e : Q),
      In (Phase3.mkDaily z d e) (Phase3.daily_energy zones) <->
      exists s, In (z, s) zones
                /\ (20 <= length (Phase3.valid_in_day s d))%nat
                /\ e = Pd.Qsum (Phase3.valid_in_day s d) / 1000.0)
  /\ (forall (s : Phase3.series) (z : string) (d : Z) (e : Q),
         length (Phase3.valid_in_day s d) = 19%nat ->
         ~ In (Phase3.mkDaily z d e) (Phase3.daily_energy [(z, s)])).
Proof.
  split.
  - intros zones z d e. rewrite daily_energy_In.
    split; intros [s [Hzs H]]; exists s; (split; [exact Hzs|]);
      apply daily_kwh_In; exact H.
  - intros s z d e H19 Hin. apply daily_energy_In in Hin as [s' [Hzs Hin]].
    destruct Hzs as [Heq|[]]. inversion Heq; subst s'.
    apply daily_kwh_In in Hin as [Hlen _]. lia.
Qed.

(** Hourly readings of [n] consecutive hours from hour [t0], all 500 W. *)
Definition hours_500W (t0 : Z) (n : nat) : Phase3.series :=
  List.map (fun k => ((t0 + Z.of_nat k)%Z, Some 500)) (seq 0 n).

Lemma daily_row_iff_20_valid_hours_witness :
  In (Phase3.mkDaily "BLR-0001" 0 (Pd.Qsum (Phase3.valid_in_day (hours_500W 0 20) 0) / 1000.0))
     (Phase3.daily_energy [("BLR-0001"%string, hours_500W 0 20)])
  /\ forall e, ~ In (Phase3.mkDaily "BLR-0001" 0 e)
                    (Phase3.daily_energy [("BLR-0001"%string, hours_500W 0 19)]).
Proof.
  split.
  - apply (proj1 daily_row_iff_20_valid_hours).
    exists (hours_500W 0 20). split; [left; reflexivity|].
    split; [vm_compute; lia | reflexivity].
  - intros e. apply (proj2 daily_row_iff_20_valid_hours). reflexivity.
Defined.

(** ** Phase 4: zone-year rules *)

Lemma between_true (lo hi x : Q) :
  Phase4QA.between lo hi x = true <-> lo <= x <= hi.
Proof.
  unfold Phase4QA.between. rewrite andb_true_iff, !Qleb_true. tauto.
Qed.

Lemma qa_detail_In (de : list de_row) (r : Phase4QA.zy_row) :
  In r (Phase4QA.qa_detail de) ->
  r = Phase4QA.rules (Phase4QA.stat r) /\ In (Phase4QA.stat r) (Phase4QA.stats de).
Proof.
  unfold Phase4QA.qa_detail. intros Hin.
  apply in_map_iff in Hin as [a [<- Ha]]. split; [reflexivity | exact Ha].
Qed.

Lemma stats_cap_factor (de : list de_row) (a : Phase4QA.zy_agg) :
  In a (Phase4QA.stats de) ->
  Phase4QA.cap_factor a = Phase4QA.annual_kwh a / (10.0 * 24 * 365).
Proof.
  unfold Phase4QA.stats. intros Hin.
  apply in_map_iff in Hin as [k [<- _]]. reflexivity.
Qed.

(** C8.  For every row of the zone-year detail table, each rule column is
    its threshold test (days >= 330, zero days <= 40, capacity factor in
    [0.12, 0.28], mean daily energy in [5, 60]), the capacity factor is the
    annual energy over 10 kW x 24 x 365, and [qa_pass_year] is the
    conjunction of the four rule columns; so a zone-year of 300 days has
    [ok_days] false and [qa_pass_year] false whatever the other columns. *)
Theorem qa_pass_year_is_and_of_rules (de : list de_row)
    (r : Phase4QA.zy_row) :
  In r (Phase4QA.qa_detail de) ->
  let a := Phase4QA.stat r in
  (Phase4QA.ok_days r = true <-> (330 <= Phase4QA.days a)%Z)
  /\ (Phase4QA.ok_zero_days r = true <-> (Phase4QA.zero_days a <= 40)%Z)
  /\ (Phase4QA.ok_cf r = true <-> 0.12 <= Phase4QA.cap_factor a <= 0.28)
  /\ (Phase4QA.ok_mean r = true <-> 5 <= Phase4QA.mean_kwh a <= 60)
  /\ Phase4QA.cap_factor a = Phase4QA.annual_kwh a / (10.0 * 24 * 365)
  /\ Phase4QA.qa_pass_year r
     = Phase4QA.ok_days r && Phase4QA.ok_zero_days r
       && Phase4QA.ok_cf r && Phase4QA.ok_mean r
  /\ (Phase4QA.days a = 300%Z ->
      Phase4QA.ok_days r = false /\ Phase4QA.qa_pass_year r = false).
Proof.
  intros Hin a. apply qa_detail_In in Hin as [Hr Ha]. fold a in Hr, Ha.
  rewrite Hr. simpl.
  split; [apply Z.leb_le|].
  split; [apply Z.leb_le|].
  split; [apply between_true|].
  split; [apply between_true|].
  split; [apply (stats_cap_factor de a Ha)|].
  split; [rewrite andb_true_r, !andb_assoc; reflexivity|].
  intros H300.
  assert (Hd : (330 <=? Phase4QA.days a)%Z = false)
    by (apply Z.leb_gt; lia).
  rewrite Hd. split; reflexivity.
Qed.

(** A zone-year of 300 observed days: day 1-30 of months 1-10. *)
Definition year_of_300_days : list de_row :=
  List.map (fun k => mkDe "BLR-0001"
                          (mkDate 2023 (1 + Z.of_nat (k / 30))
                                       (1 + Z.of_nat (k mod 30)))
                          40)
           (seq 0 300).

Lemma qa_pass_year_is_and_of_rules_witness :
  exists r, In r (Phase4QA.qa_detail year_of_300_days)
            /\ Phase4QA.days (Phase4QA.stat r) = 300%Z
            /\ Phase4QA.ok_days r = false
            /\ Phase4QA.qa_pass_year r = false.
Proof.
  set (d := Phase4QA.rules (Phase4QA.mkAgg "" 0 0 0 0 0 0 0 0)).
  exists (hd d (Phase4QA.qa_detail year_of_300_days)).
  assert (Hin : In (hd d (Phase4QA.qa_detail year_of_300_days))
                   (Phase4QA.qa_detail year_of_300_days))
    by (vm_compute; left; reflexivity).
  assert (H300 : Phase4QA.days
                   (Phase4QA.stat (hd d (Phase4QA.qa_detail year_of_300_days)))
                 = 300%Z) by (vm_compute; reflexivity).
  split; [exact Hin|]. split; [exact H300|].
  apply (qa_pass_year_is_and_of_rules year_of_300_days _ Hin). exact H300.
Defined.

(** ** Phase 4: zone summary *)

Lemma In_elem_of {A : Type} (x : A) (l : list A) : In x l <-> x ∈ l.
Proof. symmetry. apply list_elem_of_In. Qed.

Lemma remove_dups_In {A : Type} `{EqDecision A} (x : A) (l : list A) :
  In x (remove_dups l) <-> In x l.
Proof. rewrite !In_elem_of. apply elem_of_remove_dups. Qed.

Lemma zones_of_In (s : list Phase4QA.zy_row) (z : string) :
  In z (Phase4QA.zones_of s) <->
  exists r, In r s /\ Phase4QA.zone (Phase4QA.stat r) = z.
Proof.
  unfold Phase4QA.zones_of. rewrite sort_by_In, remove_dups_In, in_map_iff.
  split; intros [r [H1 H2]]; exists r; tauto.
Qed.

Lemma zones_of_NoDup (s : list Phase4QA.zy_row) :
  NoDup (Phase4QA.zones_of s).
Proof.
  unfold Phase4QA.zones_of.
  rewrite sort_by_perm. apply NoDup_remove_dups.
Qed.

Lemma rows_of_In (z : string) (s : list Phase4QA.zy_row)
    (r : Phase4QA.zy_row) :
  In r (Phase4QA.rows_of z s) <->
  In r s /\ Phase4QA.zone (Phase4QA.stat r) = z.
Proof.
  unfold Phase4QA.rows_of. rewrite filter_In, String.eqb_eq. tauto.
Qed.

Lemma count_true_pos (l : list bool) :
  (0 < Phase4QA.count_true l)%nat <-> In true l.
Proof.
  unfold Phase4QA.count_true. induction l as [|[|] r IH]; simpl.
  - split; [lia | tauto].
  - split; [auto | lia].
  - rewrite IH. split; [auto | intros [H|H]; [discriminate | exact H]].
Qed.

Lemma merge_left_keys {A : Type} (z : string) (f : string -> A)
    (keys : list string) :
  Phase4QA.merge_left z (List.map (fun k => (k, f k)) keys)
  = if existsb (fun k => String.eqb k z) keys then Some (f z) else None.
Proof.
  induction keys as [|k r IH]; simpl; [reflexivity|].
  destruct (String.eqb k z) eqn:E; simpl.
  - apply String.eqb_eq in E. subst k. reflexivity.
  - exact IH.
Qed.

Lemma merge_left_absent {A : Type} (z : string) (t : list (string * A)) :
  ~ In z (List.map fst t) -> Phase4QA.merge_left z t = None.
Proof.
  induction t as [|[k v] r IH]; simpl; [reflexivity|].
  intros Hn. destruct (String.eqb k z) eqn:E.
  - apply String.eqb_eq in E. exfalso. apply Hn. left. exact E.
  - apply IH. intros Hin. apply Hn. right. exact Hin.
Qed.

Lemma recent_full_keys (full : list Phase4QA.zy_row) (z : string) :
  In z (List.map fst (Phase4QA.recent_full full)) ->
  In z (Phase4QA.zones_of full).
Proof.
  unfold Phase4QA.recent_full. intros Hin.
  apply in_map_iff in Hin as [[k v] [Hk Hin]]. simpl in Hk. subst k.
  apply in_flat_map in Hin as [z' [Hz' Hin]].
  destruct (rev _) as [|r l]; [destruct Hin|].
  destruct Hin as [Heq|[]]. inversion Heq; subst. exact Hz'.
Qed.

(** The number of passing full years the summary records for zone [z]. *)
Lemma n_full_pass_pos (z : string) (s : list Phase4QA.zy_row) :
  let full := List.filter Phase4QA.is_full_year s in
  (0 < match Phase4QA.merge_left z (Phase4QA.full_pass_table full) with
       | Some n => n
       | None => O
       end)%nat <->
  exists r, In r s /\ Phase4QA.zone (Phase4QA.stat r) = z
            /\ Phase4QA.is_full_year r = true
            /\ Phase4QA.qa_pass_year r = true.
Proof.
  intros full. unfold Phase4QA.full_pass_table.
  rewrite (merge_left_keys z
             (fun z => Phase4QA.count_true
                         (List.map Phase4QA.qa_pass_year
                                   (Phase4QA.rows_of z full)))).
  destruct (existsb _ _) eqn:E.
  - rewrite count_true_pos, in_map_iff. split.
    + intros [r [Hp Hin]]. apply rows_of_In in Hin as [Hin Hz].
      apply filter_In in Hin as [Hin Hf]. exists r. tauto.
    + intros [r [Hin [Hz [Hf Hp]]]]. exists r. split; [exact Hp|].
      apply rows_of_In. split; [|exact Hz]. apply filter_In. tauto.
  - split; [lia|]. intros [r [Hin [Hz [Hf Hp]]]]. exfalso.
    assert (Hzin : In z (Phase4QA.zones_of full)).
    { apply zones_of_In. exists r. split; [|exact Hz].
      apply filter_In. tauto. }
    assert (Hex : existsb (fun k => String.eqb k z) (Phase4QA.zones_of full)
                  = true).
    { apply existsb_exists. exists z. split; [exact Hzin|].
      apply String.eqb_refl. }
    congruence.
Qed.

Lemma count_true_zero (l : list bool) :
  Phase4QA.count_true l = O <-> ~ In true l.
Proof.
  pose proof (count_true_pos l) as H. split.
  - intros H0 Hin. apply H in Hin. lia.
  - intros Hn. destruct (Phase4QA.count_true l) eqn:E; [reflexivity|].
    exfalso. apply Hn, H. lia.
Qed.

Lemma zone_summary_In (s : list Phase4QA.zy_row) (r : Phase4QA.zone_row) :
  In r (Phase4QA.zone_summary s) ->
  let z := Phase4QA.zs_zone r in
  let full := List.filter Phase4QA.is_full_year s in
  In z (Phase4QA.zones_of s)
  /\ Phase4QA.n_full_years r
     = Phase4QA.count_true
         (List.map Phase4QA.is_full_year (Phase4QA.rows_of z s))
  /\ Phase4QA.n_full_pass r
     = match Phase4QA.merge_left z (Phase4QA.full_pass_table full) with
       | Some n => n
       | None => O
       end
  /\ Phase4QA.qa_pass_zone r = (0 <? Phase4QA.n_full_pass r)%nat
  /\ Phase4QA.latest_full_year r
     = option_map fst (Phase4QA.merge_left z (Phase4QA.recent_full full))
  /\ Phase4QA.latest_full_year_pass r
     = option_map snd (Phase4QA.merge_left z (Phase4QA.recent_full full)).
Proof.
  unfold Phase4QA.zone_summary. intros Hin.
  apply in_map_iff in Hin as [z [<- Hz]]. simpl. tauto.
Qed.

Lemma rules_rows_In (aggs : list Phase4QA.zy_agg) (r : Phase4QA.zy_row) :
  In r (List.map Phase4QA.rules aggs) <->
  exists a, In a aggs /\ r = Phase4QA.rules a.
Proof.
  rewrite in_map_iff. split; intros [a [H1 H2]]; exists a; auto.
Qed.

(** The zone flag in terms of the zone-year statistics. *)
Lemma qa_pass_zone_iff (aggs : list Phase4QA.zy_agg) (r : Phase4QA.zone_row) :
  In r (Phase4QA.zone_summary (List.map Phase4QA.rules aggs)) ->
  (Phase4QA.qa_pass_zone r = true <->
   exists a, In a aggs /\ Phase4QA.zone a = Phase4QA.zs_zone r
             /\ (360 <= Phase4QA.days a)%Z
             /\ Phase4QA.qa_pass_year (Phase4QA.rules a) = true).
Proof.
  intros Hin. apply zone_summary_In in Hin as (_ & _ & Hnfp & Hflag & _).
  rewrite Hflag, Hnfp, Nat.ltb_lt, n_full_pass_pos. split.
  - intros [row [Hrow [Hz [Hf Hp]]]].
    apply rules_rows_In in Hrow as [a [Ha ->]]. exists a.
    simpl in Hz, Hf. apply Z.leb_le in Hf. tauto.
  - intros [a [Ha [Hz [Hf Hp]]]]. exists (Phase4QA.rules a).
    split; [apply rules_rows_In; exists a; tauto|].
    split; [exact Hz|]. split; [|exact Hp].
    simpl. apply Z.leb_le. exact Hf.
Qed.

Lemma n_full_years_zero_iff (aggs : list Phase4QA.zy_agg)
    (r : Phase4QA.zone_row) :
  In r (Phase4QA.zone_summary (List.map Phase4QA.rules aggs)) ->
  (Phase4QA.n_full_years r = O <->
   forall a, In a aggs -> Phase4QA.zone a = Phase4QA.zs_zone r ->
             (Phase4QA.days a < 360)%Z).
Proof.
  intros Hin. apply zone_summary_In in Hin as (_ & Hn & _).
  rewrite Hn, count_true_zero, in_map_iff. split.
  - intros Hnone a Ha Hz.
    destruct (Z.lt_ge_cases (Phase4QA.days a) 360) as [Hlt|Hge];
      [exact Hlt|].
    exfalso. apply Hnone. exists (Phase4QA.rules a). split.
    + simpl. apply Z.leb_le. exact Hge.
    + apply rows_of_In. split; [|exact Hz].
      apply rules_rows_In. exists a. tauto.
  - intros Hall [row [Hf Hrow]]. apply rows_of_In in Hrow as [Hrow Hz].
    apply rules_rows_In in Hrow as [a [Ha ->]]. simpl in Hf, Hz.
    apply Z.leb_le in Hf. unfold Phase4QA.FULL_YEAR_DAY_MIN in Hf.
    specialize (Hall a Ha Hz). lia.
Qed.

Lemma no_full_year_row (aggs : list Phase4QA.zy_agg) (r : Phase4QA.zone_row) :
  In r (Phase4QA.zone_summary (List.map Phase4QA.rules aggs)) ->
  Phase4QA.n_full_years r = O ->
  Phase4QA.qa_pass_zone r = false
  /\ Phase4QA.n_full_pass r = O
  /\ Phase4QA.latest_full_year r = None
  /\ Phase4QA.latest_full_year_pass r = None.
Proof.
  intros Hin H0.
  pose proof (proj1 (n_full_years_zero_iff aggs r Hin) H0) as Hpartial.
  pose proof (qa_pass_zone_iff aggs r Hin) as Hflag.
  apply zone_summary_In in Hin as (_ & _ & Hnfp & Hq & Hly & Hlp).
  assert (Hfalse : Phase4QA.qa_pass_zone r = false).
  { destruct (Phase4QA.qa_pass_zone r); [|reflexivity].
    destruct (proj1 Hflag eq_refl) as [a [Ha [Hz [Hf _]]]].
    specialize (Hpartial a Ha Hz). lia. }
  assert (Hkeys : ~ In (Phase4QA.zs_zone r)
                       (Phase4QA.zones_of
                          (List.filter Phase4QA.is_full_year
                                       (List.map Phase4QA.rules aggs)))).
  { intros Hz. apply zones_of_In in Hz as [row [Hrow Hz]].
    apply filter_In in Hrow as [Hrow Hf].
    apply rules_rows_In in Hrow as [a [Ha ->]]. simpl in Hf, Hz.
    apply Z.leb_le in Hf. unfold Phase4QA.FULL_YEAR_DAY_MIN in Hf.
    specialize (Hpartial a Ha Hz). lia. }
  split; [exact Hfalse|]. split.
  - rewrite Hq in Hfalse. apply Nat.ltb_ge in Hfalse. lia.
  - rewrite Hly, Hlp, merge_left_absent; [split; reflexivity|].
    intros Hin. apply Hkeys, recent_full_keys, Hin.
Qed.

(** C3.  The zone summary has one row per observed zone, and on each row:
    the zone flag is true exactly when some full year (at least 360 days)
    of the zone has [qa_pass_year] true, a condition in which the partial
    years of the zone do not occur, so that adding partial years to the
    statistics leaves the flag as it is; the count of full years is 0
    exactly when all observed years of the zone are partial, and such a
    row has the flag false and no latest full year.  The three outcomes
    are thus told apart on the row: pass by the flag, undetermined by a
    zero count of full years, fail by a false flag with a positive count. *)
Theorem zone_outcome_three_valued (aggs : list Phase4QA.zy_agg) :
  let summary := Phase4QA.zone_summary (List.map Phase4QA.rules aggs) in
  NoDup (List.map Phase4QA.zs_zone summary)
  /\ (forall a, In a aggs ->
        exists r, In r summary /\ Phase4QA.zs_zone r = Phase4QA.zone a)
  /\ (forall r, In r summary ->
        (Phase4QA.qa_pass_zone r = true <->
         exists a, In a aggs /\ Phase4QA.zone a = Phase4QA.zs_zone r
                   /\ (360 <= Phase4QA.days a)%Z
                   /\ Phase4QA.qa_pass_year (Phase4QA.rules a) = true)
        /\ (Phase4QA.n_full_years r = O <->
            forall a, In a aggs -> Phase4QA.zone a = Phase4QA.zs_zone r ->
                      (Phase4QA.days a < 360)%Z)
        /\ (Phase4QA.n_full_years r = O ->
            Phase4QA.qa_pass_zone r = false
            /\ Phase4QA.latest_full_year r = None
            /\ Phase4QA.latest_full_year_pass r = None)
        /\ (Phase4QA.qa_pass_zone r = true ->
            (0 < Phase4QA.n_full_years r)%nat))
  /\ (forall (partial : list Phase4QA.zy_agg) r r',
        (forall a, In a partial -> (Phase4QA.days a < 360)%Z) ->
        In r summary ->
        In r' (Phase4QA.zone_summary
                 (List.map Phase4QA.rules (aggs ++ partial))) ->
        Phase4QA.zs_zone r' = Phase4QA.zs_zone r ->
        Phase4QA.qa_pass_zone r' = Phase4QA.qa_pass_zone r).
Proof.
  intros summary. split; [|split; [|split]].
  - unfold summary, Phase4QA.zone_summary. rewrite List.map_map. simpl.
    rewrite List.map_id. apply zones_of_NoDup.
  - intros a Ha. unfold summary, Phase4QA.zone_summary.
    assert (Hz : In (Phase4QA.zone a)
                    (Phase4QA.zones_of (List.map Phase4QA.rules aggs))).
    { apply zones_of_In. exists (Phase4QA.rules a). split; [|reflexivity].
      apply rules_rows_In. exists a. tauto. }
    eexists. split; [apply in_map_iff; eexists; split; [reflexivity|exact Hz]|].
    reflexivity.
  - intros r Hin.
    split; [apply (qa_pass_zone_iff aggs r Hin)|].
    split; [apply (n_full_years_zero_iff aggs r Hin)|].
    split.
    + intros H0. destruct (no_full_year_row aggs r Hin H0) as (H1 & _ & H3 & H4).
      tauto.
    + intros Hp. destruct (Phase4QA.n_full_years r) eqn:E; [|lia].
      destruct (no_full_year_row aggs r Hin E) as (H1 & _). congruence.
  - intros partial r r' Hpartial Hin Hin' Hz.
    pose proof (qa_pass_zone_iff aggs r Hin) as H.
    pose proof (qa_pass_zone_iff (aggs ++ partial) r' Hin') as H'.
    rewrite Hz in H'.
    destruct (Phase4QA.qa_pass_zone r) eqn:E.
    + apply H'. destruct (proj1 H eq_refl) as [a [Ha Hrest]].
      exists a. split; [apply in_or_app; left; exact Ha | exact Hrest].
    + destruct (Phase4QA.qa_pass_zone r') eqn:E'; [|reflexivity].
      destruct (proj1 H' eq_refl) as [a [Ha [Hza [Hf Hp]]]].
      apply in_app_or in Ha as [Ha|Ha].
      * assert (Hft : false = true) by (apply H; exists a; tauto).
        discriminate Hft.
      * specialize (Hpartial a Ha). lia.
Qed.

(** Three zones: one with a passing full year and a partial year, one with
    a failing full year, one with a partial year only. *)
Definition three_zone_stats : list Phase4QA.zy_agg :=
  [ Phase4QA.mkAgg "BLR-0001" 2023 365 0 14600 (14600 / 87600) 40 30 50;
    Phase4QA.mkAgg "BLR-0001" 2024 200 0 8000 (8000 / 87600) 40 30 50;
    Phase4QA.mkAgg "BLR-0002" 2023 365 0 3650 (3650 / 87600) 10 8 12;
    Phase4QA.mkAgg "BLR-0003" 2024 200 0 8000 (8000 / 87600) 40 30 50 ].

Lemma zone_outcome_three_valued_witness :
  let summary :=
    Phase4QA.zone_summary (List.map Phase4QA.rules three_zone_stats) in
  exists r1 r2 r3,
    summary = [r1; r2; r3]
    /\ (Phase4QA.qa_pass_zone r1 = true /\ Phase4QA.n_full_years r1 = 1%nat)
    /\ (Phase4QA.qa_pass_zone r2 = false /\ Phase4QA.n_full_years r2 = 1%nat)
    /\ (Phase4QA.qa_pass_zone r3 = false /\ Phase4QA.n_full_years r3 = O
        /\ Phase4QA.latest_full_year r3 = None
        /\ Phase4QA.latest_full_year_pass r3 = None).
Proof.
  intros summary.
  destruct summary as [|r1 [|r2 [|r3 [|r4 l]]]] eqn:E;
    try (vm_compute in E; discriminate E).
  exists r1, r2, r3. split; [reflexivity|].
  assert (H1 : Phase4QA.qa_pass_zone r1 = true
               /\ Phase4QA.n_full_years r1 = 1%nat)
    by (vm_compute in E; inversion E; split; reflexivity).
  assert (H2 : Phase4QA.qa_pass_zone r2 = false
               /\ Phase4QA.n_full_years r2 = 1%nat)
    by (vm_compute in E; inversion E; split; reflexivity).
  assert (H3 : Phase4QA.n_full_years r3 = O)
    by (vm_compute in E; inversion E; reflexivity).
  split; [exact H1|]. split; [exact H2|].
  assert (Hin : In r3 (Phase4QA.zone_summary
                         (List.map Phase4QA.rules three_zone_stats)))
    by (fold summary; rewrite E; right; right; left; reflexivity).
  destruct (proj1 (proj2 (proj2 (zone_outcome_three_valued three_zone_stats)))
              r3 Hin) as (_ & _ & Hund & _).
  destruct (Hund H3) as (Hf & Hy & Hp). tauto.
Defined.

(** ** Phase 4: the zones handed to the feature engine *)











(** ** Phase 4: the rolling z-score *)

Lemma zip_with_length {A B C : Type} (f : A -> B -> C) (l : list A)
    (r : list B) :
  length (Phase4Features.zip_with f l r) = Nat.min (length l) (length r).
Proof.
  revert r. induction l as [|x l IH]; intros [|y r]; simpl; auto.
Qed.

Lemma zip_with_nth {A B C : Type} (f : A -> B -> C) (l : list A) (r : list B)
    (i : nat) (da : A) (db : B) (dc : C) :
  (i < length l)%nat -> (i < length r)%nat ->
  nth i (Phase4Features.zip_with f l r) dc = f (nth i l da) (nth i r db).
Proof.
  revert r i. induction l as [|x l IH]; intros [|y r] [|i]; simpl;
    try lia; intros Hl Hr; [reflexivity|].
  apply IH; lia.
Qed.

Lemma rolling_length (w m : nat) (agg : list Q -> Q) (s : list cell) :
  length (Pd.rolling w m agg s) = length s.
Proof. unfold Pd.rolling. rewrite length_map, length_seq. reflexivity. Qed.

Lemma nth_map_seq {A : Type} (f : nat -> A) (a n i : nat) (d : A) :
  (i < n)%nat -> nth i (List.map f (seq a n)) d = f (a + i)%nat.
Proof.
  revert a i. induction n as [|n IH]; intros a [|i] Hi; simpl; try lia.
  - f_equal. lia.
  - rewrite IH by lia. f_equal. lia.
Qed.

Lemma rolling_nth (w m : nat) (agg : list Q -> Q) (s : list cell) (i : nat) :
  (i < length s)%nat ->
  nth i (Pd.rolling w m agg s) None
  = if (m <=? length (Pd.dropna (Pd.window w i s)))%nat
    then Some (agg (Pd.dropna (Pd.window w i s)))
    else None.
Proof.
  intros Hi. unfold Pd.rolling. rewrite nth_map_seq by exact Hi.
  reflexivity.
Qed.

Lemma replace_zero_nth (l : list cell) (i : nat) :
  nth i (Phase4Features.replace_zero l) None
  = match nth i l None with
    | Some q => if Qeqb q 0 then None else Some q
    | None => None
    end.
Proof.
  unfold Phase4Features.replace_zero. revert i.
  induction l as [|c l IH]; intros [|i]; simpl; auto.
Qed.

Section RollingFacts.
Variable sqrt : Q -> Q.

(** The z-score of row [i], from the three columns it is computed from. *)
Lemma roll7_z_nth (s : list cell) (i : nat) :
  (i < length s)%nat ->
  nth i (Phase4Features.roll7_z_col sqrt s) Phase4Features.Null
  = Phase4Features.cell_div
      (Phase4Features.cell_sub
         (nth i s None) (nth i (Phase4Features.roll7_mean_col s) None))
      (match nth i (Phase4Features.roll7_std_col sqrt s) None with
       | Some q => if Qeqb q 0 then None else Some q
       | None => None
       end).
Proof.
  intros Hi. unfold Phase4Features.roll7_z_col, Phase4Features.roll7_divisor.
  rewrite (zip_with_nth _ _ _ i None None).
  - rewrite (zip_with_nth _ _ _ i None None), replace_zero_nth.
    + reflexivity.
    + exact Hi.
    + unfold Phase4Features.roll7_mean_col. rewrite rolling_length. exact Hi.
  - rewrite zip_with_length. unfold Phase4Features.roll7_mean_col.
    rewrite rolling_length. lia.
  - unfold Phase4Features.replace_zero, Phase4Features.roll7_std_col.
    rewrite length_map, rolling_length. exact Hi.
Qed.

Lemma roll7_std_few_obs (s : list cell) (i : nat) :
  (i < length s)%nat ->
  (length (Pd.dropna (Pd.window 7 i s)) < 3)%nat ->
  nth i (Phase4Features.roll7_std_col sqrt s) None = None.
Proof.
  intros Hi Hn. unfold Phase4Features.roll7_std_col.
  rewrite rolling_nth by exact Hi.
  destruct (3 <=? _)%nat eqn:E; [apply Nat.leb_le in E; lia | reflexivity].
Qed.

End RollingFacts.

(** C10.  At every row of a zone's daily energy series, the rolling 7-day
    z-score is null when the window holds fewer than 3 observations (the
    rolling standard deviation is then null), when the rolling standard
    deviation is null, and when it is zero; it is never the result of a
    division by zero; and a z-score that is a number is the deviation from
    the rolling mean over a rolling standard deviation different from
    zero.  This holds whatever the square root of the library returns. *)
Theorem roll7_z_null_without_spread (sqrt : Q -> Q) (s : list cell)
    (i : nat) :
  (i < length s)%nat ->
  let z := nth i (Phase4Features.roll7_z_col sqrt s) Phase4Features.Null in
  let sd := nth i (Phase4Features.roll7_std_col sqrt s) None in
  let m := nth i (Phase4Features.roll7_mean_col s) None in
  ((length (Pd.dropna (Pd.window 7 i s)) < 3)%nat ->
   sd = None /\ z = Phase4Features.Null)
  /\ (sd = None -> z = Phase4Features.Null)
  /\ (forall q, sd = Some q -> q == 0 -> z = Phase4Features.Null)
  /\ z <> Phase4Features.DivByZero
  /\ (forall v, z = Phase4Features.Fin v ->
        exists x mu q,
          nth i s None = Some x /\ m = Some mu /\ sd = Some q
          /\ ~ q == 0 /\ v = (x - mu) / q).
Proof.
  intros Hi z sd m.
  assert (Hz : z = Phase4Features.cell_div
                     (Phase4Features.cell_sub (nth i s None) m)
                     (match sd with
                      | Some q => if Qeqb q 0 then None else Some q
                      | None => None
                      end))
    by (apply roll7_z_nth; exact Hi).
  assert (Hnull : forall a, Phase4Features.cell_div a None
                            = Phase4Features.Null)
    by (intros [x|]; reflexivity).
  split; [|split; [|split; [|split]]].
  - intros Hn. assert (Hsd : sd = None)
      by (apply roll7_std_few_obs; assumption).
    split; [exact Hsd|]. rewrite Hz, Hsd. apply Hnull.
  - intros Hsd. rewrite Hz, Hsd. apply Hnull.
  - intros q Hsd Hq. rewrite Hz, Hsd.
    assert (E : Qeqb q 0 = true) by (apply Qeq_bool_iff; exact Hq).
    rewrite E. apply Hnull.
  - rewrite Hz. destruct sd as [q|]; [|rewrite Hnull; discriminate].
    destruct (Qeqb q 0) eqn:E; [rewrite Hnull; discriminate|].
    destruct (Phase4Features.cell_sub (nth i s None) m) as [x|]; simpl;
      [rewrite E|]; discriminate.
  - intros v Hv. rewrite Hz in Hv.
    destruct sd as [q|]; [|rewrite Hnull in Hv; discriminate].
    destruct (Qeqb q 0) eqn:E; [rewrite Hnull in Hv; discriminate|].
    destruct (nth i s None) as [x|]; [|discriminate].
    destruct m as [mu|]; [|discriminate].
    simpl in Hv. rewrite E in Hv. inversion Hv; subst v.
    exists x, mu, q. repeat split.
    intros Hq. apply Qeq_bool_iff in Hq. unfold Qeqb in E. congruence.
Qed.

(** A square root to three decimals, to run the rolling columns. *)
Definition sqrt_3dp (q : Q) : Q :=
  inject_Z (Z.sqrt (Qfloor (q * 1000000))) / 1000.

Lemma roll7_z_null_without_spread_witness :
  let flat := [Some 5; Some 5; Some 5; Some 5] in
  nth 1 (Phase4Features.roll7_z_col sqrt_3dp flat) Phase4Features.Null
  = Phase4Features.Null
  /\ nth 3 (Phase4Features.roll7_z_col sqrt_3dp flat) Phase4Features.Null
     = Phase4Features.Null.
Proof.
  intros flat. split.
  - assert (Hi : (1 < length flat)%nat) by (simpl; lia).
    destruct (roll7_z_null_without_spread sqrt_3dp flat 1 Hi)
      as (Hfew & _).
    apply Hfew. vm_compute. lia.
  - assert (Hi : (3 < length flat)%nat) by (simpl; lia).
    destruct (roll7_z_null_without_spread sqrt_3dp flat 3 Hi)
      as (_ & _ & Hzero & _).
    apply (Hzero (sqrt_3dp 0)).
    + vm_compute. reflexivity.
    + vm_compute. reflexivity.
Defined.

(** ** Phase 2: the gap mask *)

Lemma window_length_le {A : Type} (w i : nat) (l : list A) :
  (length (Pd.window w i l) <= w)%nat.
Proof.
  unfold Pd.window. rewrite length_skipn, length_firstn. lia.
Qed.

Lemma window_In {A : Type} (w i : nat) (l : list A) (x : A) :
  In x (Pd.window w i l) -> In x l.
Proof.
  unfold Pd.window. intros H.
  rewrite <- (firstn_skipn (i + 1) l). apply in_or_app. left.
  rewrite <- (firstn_skipn (i + 1 - w) (firstn (i + 1) l)).
  apply in_or_app. right. exact H.
Qed.

Lemma dropna_length_le (l : list cell) :
  (length (Pd.dropna l) <= length l)%nat.
Proof.
  induction l as [|[v|] r IH]; simpl; lia.
Qed.

Lemma Qsum_le_length (obs : list Q) :
  (forall v, In v obs -> v <= 1) ->
  Pd.Qsum obs <= inject_Z (Z.of_nat (length obs)).
Proof.
  induction obs as [|x r IH]; intros Hall.
  - simpl. apply Qle_refl.
  - change (Pd.Qsum (x :: r)) with (x + Pd.Qsum r).
    replace (Z.of_nat (length (x :: r))) with (1 + Z.of_nat (length r))%Z
      by (simpl length; lia).
    rewrite inject_Z_plus.
    apply Qplus_le_compat.
    + apply Hall. left. reflexivity.
    + apply IH. intros v Hv. apply Hall. right. exact Hv.
Qed.

Lemma bool_cells_le_1 (bs : list bool) (v : Q) :
  In (Some v) (Pd.bool_cells bs) -> v <= 1.
Proof.
  unfold Pd.bool_cells. intros H. apply in_map_iff in H as [b [Hb _]].
  inversion Hb. destruct b; vm_compute; discriminate.
Qed.

Lemma map_seq_const {A : Type} (f : nat -> A) (x : A) (a n : nat) :
  (forall i, f i = x) -> List.map f (seq a n) = repeat x n.
Proof.
  intros Hf. revert a. induction n as [|n IH]; intros a; simpl.
  - reflexivity.
  - rewrite Hf, IH. reflexivity.
Qed.

(** The rolling 3-hour count of nulls never exceeds 3: the mask of line 52
    holds at every row. *)
Lemma small_gap_all_true (c : list cell) :
  Phase2.small_gap c = repeat true (length c).
Proof.
  unfold Phase2.small_gap, Pd.fillna, Pd.rolling.
  rewrite !List.map_map.
  assert (Hlen : length (Pd.bool_cells (Pd.isna c)) = length c)
    by (unfold Pd.bool_cells, Pd.isna; rewrite !length_map; reflexivity).
  rewrite Hlen. pose proof (bool_cells_le_1 (Pd.isna c)) as Hle.
  assert (Hrow : forall i,
             Qleb (match (if (3 <=? length (Pd.dropna (Pd.window 3 i
                                 (Pd.bool_cells (Pd.isna c)))))%nat
                          then Some (Pd.Qsum (Pd.dropna (Pd.window 3 i
                                 (Pd.bool_cells (Pd.isna c)))))
                          else None) with
                   | Some v => v
                   | None => 0
                   end) 3 = true).
  { intros i. destruct (3 <=? _)%nat; [|reflexivity].
    apply Qleb_true.
    eapply Qle_trans.
    - apply Qsum_le_length. intros v Hv. apply Hle.
      apply dropna_In in Hv. apply (window_In 3 i). exact Hv.
    - pose proof (dropna_length_le (Pd.window 3 i (Pd.bool_cells (Pd.isna c)))).
      pose proof (window_length_le 3 i (Pd.bool_cells (Pd.isna c))).
      change (3 : Q) with (inject_Z 3). rewrite <- Zle_Qle. lia. }
  apply map_seq_const. exact Hrow.
Qed.

Lemma where_all_true (l : list cell) :
  Pd.where_ l (repeat true (length l)) = l.
Proof.
  induction l as [|x r IH]; simpl; [reflexivity|]. rewrite IH. reflexivity.
Qed.

Lemma ffill_from_length (last : cell) (l : list cell) :
  length (Pd.ffill_from last l) = length l.
Proof.
  revert last. induction l as [|[v|] r IH]; intros last; simpl;
    [reflexivity | |]; rewrite IH; reflexivity.
Qed.

(** With the mask true everywhere, line 53 is a plain forward fill. *)
Lemma fill_gaps_is_ffill (c : list cell) : Phase2.fill_gaps c = Pd.ffill c.
Proof.
  unfold Phase2.fill_gaps. rewrite small_gap_all_true.
  rewrite <- (ffill_from_length None c). apply where_all_true.
Qed.

(** The null pattern of the columns of a cleaned frame. *)
Definition null_pattern (f : option Phase2.frame)
  : option (list (string * list bool)) :=
  option_map (fun df => List.map (fun kc => (fst kc, Pd.isna (snd kc)))
                                 (Phase2.columns df)) f.

(** Eight hours of one zone; the irradiance is missing for five hours in a
    row (hours 1-5). *)
Definition five_hour_gap : Phase2.frame :=
  Phase2.raw_frame
    [0; 1; 2; 3; 4; 5; 6; 7]%Z
    [Some 0; None; None; None; None; None; Some 310; Some 420]
    [Some 21; Some 21; Some 22; Some 22; Some 23; Some 24; Some 25; Some 26]
    [Some 2; Some 2; Some 3; Some 3; Some 2; Some 2; Some 3; Some 3].

(** C1 (the code departs from it).  The mask that should limit the forward
    fill to gaps of at most 3 hours is true at every row, so every column is
    forward-filled without limit; on a series whose irradiance is missing
    for five hours in a row the cleaned irradiance has no null left. *)
Theorem long_gap_is_forward_filled :
  (forall c : list cell, Phase2.fill_gaps c = Pd.ffill c)
  /\ null_pattern (Phase2.clean_hourly five_hour_gap)
     = Some [("t2m_c"%string, repeat false 8);
             ("ws10_ms"%string, repeat false 8);
             ("ghi_whm2"%string, repeat false 8)].
Proof.
  split; [exact fill_gaps_is_ffill | vm_compute; reflexivity].
Qed.

(** ** Phase 2: what a second cleaning does *)

Lemma Qmult_1_r_eq (v : Q) : v * 1 = v.
Proof.
  destruct v as [n d]. unfold Qmult. simpl.
  rewrite Z.mul_1_r, Pos.mul_1_r. reflexivity.
Qed.

Lemma map_times_one (c : list cell) :
  List.map (option_map (fun v => v * 1)) c = c.
Proof.
  induction c as [|[v|] r IH]; simpl; [reflexivity| |];
    rewrite IH; [rewrite Qmult_1_r_eq|]; reflexivity.
Qed.

Lemma ffill_from_idem (last : cell) (l : list cell) :
  Pd.ffill_from last (Pd.ffill_from last l) = Pd.ffill_from last l.
Proof.
  revert last. induction l as [|[v|] r IH]; intros last; simpl.
  - reflexivity.
  - rewrite IH. reflexivity.
  - destruct last as [u|]; simpl; rewrite IH; reflexivity.
Qed.

Lemma ffill_from_map (f : Q -> Q) (last : cell) (l : list cell) :
  Pd.ffill_from (option_map f last) (List.map (option_map f) l)
  = List.map (option_map f) (Pd.ffill_from last l).
Proof.
  revert last. induction l as [|[v|] r IH]; intros last; simpl.
  - reflexivity.
  - rewrite <- IH. reflexivity.
  - rewrite <- IH. destruct last; reflexivity.
Qed.

(** A column that is a forward fill stays one under a map of its values. *)
Lemma ffill_fixed_map (f : Q -> Q) (c : list cell) :
  Pd.ffill c = c -> Pd.ffill (List.map (option_map f) c)
                    = List.map (option_map f) c.
Proof.
  intros Hc. unfold Pd.ffill in *.
  change (@None Q) with (option_map f None).
  rewrite ffill_from_map, Hc. reflexivity.
Qed.

(** The function [Series.clip] applies to each non-null value. *)
Definition clip_fun (lower upper : cell) : Q -> Q :=
  match lower, upper with
  | Some a, Some b =>
      Pd.clip1 (if Qltb b a then b else a) (if Qltb b a then a else b)
  | Some a, None => fun v => if Qltb v a then a else v
  | None, Some b => fun v => if Qltb b v then b else v
  | None, None => fun v => v
  end.

Lemma clip_as_map (lower upper : cell) (l : list cell) :
  Pd.clip lower upper l = List.map (option_map (clip_fun lower upper)) l.
Proof.
  destruct lower as [a|], upper as [b|]; simpl; try reflexivity.
  symmetry. rewrite <- (List.map_id l) at 2. apply List.map_ext.
  intros [v|]; reflexivity.
Qed.

Lemma winsorize_as_map (c : list cell) :
  Phase2.winsorize c
  = List.map (option_map (clip_fun (Pd.quantile 0.01 c) (Pd.quantile 0.99 c)))
             c.
Proof. apply clip_as_map. Qed.

Lemma winsorize_length (c : list cell) :
  length (Phase2.winsorize c) = length c.
Proof. rewrite winsorize_as_map. apply length_map. Qed.

Lemma winsorize_isna (c : list cell) :
  Pd.isna (Phase2.winsorize c) = Pd.isna c.
Proof.
  rewrite winsorize_as_map. unfold Pd.isna. rewrite List.map_map.
  apply List.map_ext. intros [v|]; reflexivity.
Qed.

Lemma winsorize_ffill_fixed (c : list cell) :
  Pd.ffill c = c -> Pd.ffill (Phase2.winsorize c) = Phase2.winsorize c.
Proof. rewrite winsorize_as_map. apply ffill_fixed_map. Qed.

Lemma ffill_idem (c : list cell) : Pd.ffill (Pd.ffill c) = Pd.ffill c.
Proof. apply ffill_from_idem. Qed.

(** *** Frames on a regular hourly index *)

(** The hours [lo + a, lo + a + 1, ...], [n] of them. *)
Definition hours_from (lo : Z) (a n : nat) : list Z :=
  List.map (fun k => (lo + Z.of_nat k)%Z) (seq a n).

Lemma date_range_hours (lo hi : Z) :
  Phase2.date_range lo hi = hours_from lo 0 (Z.to_nat (hi - lo + 1)).
Proof. reflexivity. Qed.

Lemma hours_from_length (lo : Z) (a n : nat) :
  length (hours_from lo a n) = n.
Proof. unfold hours_from. rewrite length_map, length_seq. reflexivity. Qed.

Lemma hours_from_In (lo : Z) (a n : nat) (t : Z) :
  In t (hours_from lo a n) -> (lo + Z.of_nat a <= t)%Z.
Proof.
  unfold hours_from. intros H. apply in_map_iff in H as [k [<- Hk]].
  apply in_seq in Hk. lia.
Qed.

Lemma combine_map_seq {A : Type} (f : nat -> A) (a n : nat) :
  List.combine (List.map f (seq a n)) (seq a n)
  = List.map (fun k => (f k, k)) (seq a n).
Proof.
  revert a. induction n as [|n IH]; intros a; simpl; [reflexivity|].
  rewrite IH. reflexivity.
Qed.

Lemma sort_by_hours (lo : Z) (a n : nat) :
  Pd.sort_by (fun x y : Z * nat => (fst x <=? fst y)%Z)
             (List.map (fun k => ((lo + Z.of_nat k)%Z, k)) (seq a n))
  = List.map (fun k => ((lo + Z.of_nat k)%Z, k)) (seq a n).
Proof.
  revert a. induction n as [|n IH]; intros a; simpl; [reflexivity|].
  rewrite IH. destruct n as [|n]; simpl; [reflexivity|].
  assert (E : (lo + Z.of_nat a <=? lo + Z.of_nat (S a))%Z = true)
    by (apply Z.leb_le; lia).
  rewrite E. reflexivity.
Qed.

Lemma argsort_hours (lo : Z) (n : nat) :
  Phase2.argsort (hours_from lo 0 n) = seq 0 n.
Proof.
  unfold Phase2.argsort. rewrite hours_from_length. unfold hours_from.
  rewrite combine_map_seq, sort_by_hours, List.map_map. simpl.
  apply List.map_id.
Qed.

Lemma take_rows_all {A : Type} (d : A) (l : list A) :
  Phase2.take_rows d (seq 0 (length l)) l = l.
Proof.
  unfold Phase2.take_rows. induction l as [|x r IH]; simpl; [reflexivity|].
  rewrite <- seq_shift, List.map_map. simpl. rewrite IH. reflexivity.
Qed.

Lemma fold_min_first (t : Z) (l : list Z) :
  (forall x, In x l -> (t <= x)%Z) -> fold_right Z.min t l = t.
Proof.
  induction l as [|u r IH]; simpl; intros Hall; [reflexivity|].
  rewrite IH by (intros x Hx; apply Hall; right; exact Hx).
  specialize (Hall u (or_introl eq_refl)). lia.
Qed.

Lemma fold_max_hours (t lo : Z) (a n : nat) :
  fold_right Z.max t (hours_from lo a n)
  = match n with
    | O => t
    | S m => Z.max t (lo + Z.of_nat a + Z.of_nat m)
    end.
Proof.
  revert a. induction n as [|n IH]; intros a; [reflexivity|].
  change (hours_from lo a (S n))
    with ((lo + Z.of_nat a)%Z :: hours_from lo (S a) n).
  simpl fold_right. rewrite IH. destruct n as [|m]; lia.
Qed.

Lemma has_duplicates_hours (lo : Z) (a n : nat) :
  Phase2.has_duplicates (hours_from lo a n) = false.
Proof.
  revert a. induction n as [|n IH]; intros a; [reflexivity|].
  change (hours_from lo a (S n))
    with ((lo + Z.of_nat a)%Z :: hours_from lo (S a) n).
  simpl. rewrite IH, orb_false_r.
  destruct (existsb _ _) eqn:E; [|reflexivity].
  apply existsb_exists in E as [x [Hx Heq]].
  apply hours_from_In in Hx. apply Z.eqb_eq in Heq. lia.
Qed.

Lemma position_hours (lo : Z) (a n k : nat) :
  (a <= k < a + n)%nat ->
  Phase2.position (lo + Z.of_nat k)%Z (hours_from lo a n) = Some (k - a)%nat.
Proof.
  revert a. induction n as [|n IH]; intros a Hk; [lia|].
  change (hours_from lo a (S n))
    with ((lo + Z.of_nat a)%Z :: hours_from lo (S a) n).
  simpl. destruct (lo + Z.of_nat a =? lo + Z.of_nat k)%Z eqn:E.
  - apply Z.eqb_eq in E. f_equal. lia.
  - apply Z.eqb_neq in E. rewrite IH by lia. simpl. f_equal. lia.
Qed.

Lemma reindex_hours (lo : Z) (c : list cell) :
  Phase2.reindex (hours_from lo 0 (length c)) (hours_from lo 0 (length c)) c
  = c.
Proof.
  transitivity (Phase2.take_rows None (seq 0 (length c)) c);
    [|apply take_rows_all].
  unfold Phase2.reindex, Phase2.take_rows. unfold hours_from at 2.
  rewrite List.map_map.
  apply List.map_ext_in. intros k Hk. apply in_seq in Hk.
  rewrite position_hours by lia. f_equal. lia.
Qed.

(** A frame is regular when its index is a run of consecutive hours and
    every column has one cell per hour. *)
Definition regular (df : Phase2.frame) : Prop :=
  (exists lo, Phase2.index df
              = hours_from lo 0 (length (Phase2.index df)))
  /\ forall kc, In kc (Phase2.columns df) ->
                length (snd kc) = length (Phase2.index df).

Lemma map_cols_id (f : list cell -> list cell)
    (cols : list (string * list cell)) :
  (forall kc, In kc cols -> f (snd kc) = snd kc) ->
  Phase2.map_cols f cols = cols.
Proof.
  intros Hf. unfold Phase2.map_cols.
  rewrite <- (List.map_id cols) at 2. apply List.map_ext_in.
  intros [k c] Hin. specialize (Hf _ Hin). simpl in *. rewrite Hf.
  reflexivity.
Qed.

Lemma sort_index_regular (df : Phase2.frame) :
  regular df -> Phase2.sort_index df = df.
Proof.
  intros [[lo Hidx] Hcols]. destruct df as [idx cols]. simpl in *.
  assert (Hord : Phase2.argsort idx = seq 0 (length idx))
    by (rewrite Hidx at 1; apply argsort_hours).
  unfold Phase2.sort_index. simpl. rewrite Hord, take_rows_all. f_equal.
  apply map_cols_id. intros kc Hin.
  rewrite <- (Hcols kc Hin). apply take_rows_all.
Qed.

Lemma asfreq_H_hours (lo : Z) (n : nat) (cols : list (string * list cell)) :
  (forall kc, In kc cols -> length (snd kc) = n) ->
  Phase2.asfreq_H {| Phase2.index := hours_from lo 0 n;
                     Phase2.columns := cols |}
  = Some {| Phase2.index := hours_from lo 0 n; Phase2.columns := cols |}.
Proof.
  intros Hcols. destruct n as [|n]; [reflexivity|].
  assert (Hcons : hours_from lo 0 (S n)
                  = (lo + Z.of_nat 0)%Z :: hours_from lo 1 n)
    by reflexivity.
  assert (Hmin : fold_right Z.min (lo + Z.of_nat 0)%Z (hours_from lo 1 n)
                 = (lo + Z.of_nat 0)%Z).
  { apply fold_min_first. intros x Hx. apply hours_from_In in Hx. lia. }
  assert (Hmax : fold_right Z.max (lo + Z.of_nat 0)%Z (hours_from lo 1 n)
                 = (lo + Z.of_nat n)%Z).
  { rewrite fold_max_hours. destruct n as [|m]; lia. }
  assert (Hdti : Phase2.date_range (lo + Z.of_nat 0) (lo + Z.of_nat n)
                 = hours_from lo 0 (S n)).
  { rewrite date_range_hours.
    replace (Z.to_nat (lo + Z.of_nat n - (lo + Z.of_nat 0) + 1)) with (S n)
      by lia.
    unfold hours_from. apply List.map_ext. intros k. lia. }
  unfold Phase2.asfreq_H. cbn [Phase2.index Phase2.columns].
  rewrite Hcons at 1. cbv iota beta.
  rewrite Hmin, Hmax, Hdti, has_duplicates_hours.
  f_equal. f_equal.
  apply map_cols_id. intros kc Hin.
  rewrite <- (Hcols kc Hin). apply reindex_hours.
Qed.

Lemma asfreq_H_regular (df : Phase2.frame) :
  regular df -> Phase2.asfreq_H df = Some df.
Proof.
  intros [[lo Hidx] Hcols]. destruct df as [idx cols]. simpl in *.
  remember (length idx) as n eqn:Hn. clear Hn. subst idx.
  apply asfreq_H_hours. exact Hcols.
Qed.

(** *** The first cleaning *)

Lemma take_rows_length {A : Type} (d : A) (ord : list nat) (l : list A) :
  length (Phase2.take_rows d ord l) = length ord.
Proof. apply length_map. Qed.

(** After [sort_index().asfreq("H")] a raw frame is regular, with the same
    three columns. *)
Lemma asfreq_sorted_raw (idx : list Z) (g t w : list cell)
    (df1 : Phase2.frame) :
  Phase2.asfreq_H (Phase2.sort_index (Phase2.raw_frame idx g t w)) = Some df1 ->
  exists G T W, df1 = Phase2.raw_frame (Phase2.index df1) G T W
                /\ regular df1.
Proof.
  unfold Phase2.sort_index, Phase2.raw_frame, Phase2.asfreq_H.
  cbn [Phase2.index Phase2.columns Phase2.map_cols List.map fst snd].
  set (ord := Phase2.argsort idx).
  destruct (Phase2.take_rows 0%Z ord idx) as [|t0 ts] eqn:E.
  - intros H. inversion H; subst df1. clear H.
    assert (Hord : ord = []).
    { apply (f_equal (@length Z)) in E. rewrite take_rows_length in E.
      destruct ord; [reflexivity | discriminate E]. }
    rewrite Hord. do 3 eexists. split; [reflexivity|]. split.
    + exists 0%Z. reflexivity.
    + intros kc [<-|[<-|[<-|[]]]]; reflexivity.
  - destruct (Phase2.has_duplicates (t0 :: ts)); [discriminate|].
    intros H. inversion H; subst df1. clear H.
    do 3 eexists. split; [reflexivity|]. split.
    + cbn [Phase2.index]. eexists. rewrite date_range_hours.
      rewrite hours_from_length. reflexivity.
    + cbn [Phase2.index Phase2.columns].
      intros kc [<-|[<-|[<-|[]]]]; cbn [snd]; unfold Phase2.reindex;
        rewrite length_map; reflexivity.
Qed.

#[local] Arguments Phase2.fill_gaps : simpl never.
#[local] Arguments Phase2.winsorize : simpl never.
#[local] Arguments Pd.clip_lower : simpl never.

(** The steps of [clean_hourly] after the reindexing, on the three raw
    columns. *)
Lemma clean_hourly_raw (idx : list Z) (g t w : list cell) :
  Phase2.clean_hourly (Phase2.raw_frame idx g t w)
  = match Phase2.asfreq_H
            (Phase2.sort_index (Phase2.raw_frame idx g t w)) with
    | None => None
    | Some df1 =>
        match Phase2.columns df1 with
        | [(_, G); (_, T); (_, W)] =>
            Some {| Phase2.index := Phase2.index df1;
                    Phase2.columns :=
                      [("t2m_c"%string,
                        Phase2.winsorize (Phase2.fill_gaps T));
                       ("ws10_ms"%string,
                        Phase2.winsorize (Phase2.fill_gaps W));
                       ("ghi_whm2"%string,
                        Phase2.winsorize
                          (List.map (option_map (fun v => v * 1))
                             (Pd.clip_lower 0 (Phase2.fill_gaps G))))] |}
        | _ => None
        end
    end.
Proof.
  unfold Phase2.clean_hourly.
  destruct (Phase2.asfreq_H _) as [df1|] eqn:E; [|reflexivity].
  destruct (asfreq_sorted_raw idx g t w df1 E) as (G & T & W & Hdf & _).
  rewrite Hdf. reflexivity.
Qed.

(** *** Values that are not negative *)

Definition nonneg (c : list cell) : Prop :=
  forall v, In (Some v) c -> 0 <= v.

Lemma nth_nonneg (a : list Q) (i : nat) (d : Q) :
  (forall v, In v a -> 0 <= v) -> 0 <= d -> 0 <= nth i a d.
Proof.
  intros Ha Hd. destruct (nth_in_or_default i a d) as [Hin | ->];
    [apply Ha, Hin | exact Hd].
Qed.

(** A percentile of values that are not negative is not negative. *)
Lemma quantile_obs_nonneg (q : Q) (obs : list Q) :
  0 <= q -> (forall v, In v obs -> 0 <= v) -> 0 <= Pd.quantile_obs q obs.
Proof.
  intros Hq Hobs. unfold Pd.quantile_obs.
  set (a := Pd.sort_by Qleb obs).
  set (pos := q * inject_Z (Z.of_nat (length a - 1))).
  set (j := Qfloor pos).
  assert (Ha : forall v, In v a -> 0 <= v)
    by (intros v Hv; apply Hobs; apply (sort_by_In Qleb obs v); exact Hv).
  assert (Hpos : 0 <= pos).
  { unfold pos. apply Qmult_le_0_compat; [exact Hq|].
    change 0 with (inject_Z 0). rewrite <- Zle_Qle. lia. }
  assert (Hg0 : 0 <= pos - inject_Z j)
    by (pose proof (Qfloor_le pos); fold j in H; lra).
  assert (Hg1 : pos - inject_Z j <= 1).
  { pose proof (Qlt_floor pos) as H. fold j in H.
    rewrite inject_Z_plus in H. change (inject_Z 1) with 1 in H. lra. }
  set (lo := nth (Z.to_nat j) a 0).
  set (hi := nth (S (Z.to_nat j)) a lo).
  assert (Hlo : 0 <= lo) by (apply nth_nonneg; [exact Ha | apply Qle_refl]).
  assert (Hhi : 0 <= hi) by (apply nth_nonneg; [exact Ha | exact Hlo]).
  set (gm := pos - inject_Z j) in *.
  assert (H1 : 0 <= lo * (1 - gm)) by (apply Qmult_le_0_compat; lra).
  assert (H2 : 0 <= hi * gm) by (apply Qmult_le_0_compat; lra).
  lra.
Qed.

Lemma quantile_nonneg (q : Q) (c : list cell) (v : Q) :
  0 <= q -> nonneg c -> Pd.quantile q c = Some v -> 0 <= v.
Proof.
  intros Hq Hc. unfold Pd.quantile.
  destruct (Pd.dropna c) as [|x r] eqn:E; [discriminate|].
  intros H. inversion H; subst v. apply quantile_obs_nonneg; [exact Hq|].
  intros u Hu. apply Hc. apply dropna_In. rewrite E. exact Hu.
Qed.

Lemma clip_fun_nonneg (lower upper : cell) (v : Q) :
  (forall a, lower = Some a -> 0 <= a) ->
  (forall b, upper = Some b -> 0 <= b) ->
  0 <= v -> 0 <= clip_fun lower upper v.
Proof.
  intros Hl Hu Hv. destruct lower as [a|], upper as [b|]; simpl.
  - specialize (Hl a eq_refl). specialize (Hu b eq_refl). unfold Pd.clip1.
    destruct (Qltb b a); destruct (Qltb v _); try assumption;
      destruct (Qltb _ v); assumption.
  - specialize (Hl a eq_refl). destruct (Qltb v a); assumption.
  - specialize (Hu b eq_refl). destruct (Qltb b v); assumption.
  - exact Hv.
Qed.

Lemma winsorize_nonneg (c : list cell) :
  nonneg c -> nonneg (Phase2.winsorize c).
Proof.
  intros Hc v Hv. rewrite winsorize_as_map in Hv.
  apply in_map_iff in Hv as [[u|] [Hu Hin]]; [|discriminate].
  inversion Hu; subst v. apply clip_fun_nonneg.
  - intros a Ha. apply (quantile_nonneg 0.01 c); [lra | exact Hc | exact Ha].
  - intros b Hb. apply (quantile_nonneg 0.99 c); [lra | exact Hc | exact Hb].
  - apply Hc, Hin.
Qed.

Lemma clip_lower_nonneg (c : list cell) : nonneg (Pd.clip_lower 0 c).
Proof.
  intros v Hv. unfold Pd.clip_lower in Hv.
  apply in_map_iff in Hv as [[u|] [Hu Hin]]; [|discriminate].
  inversion Hu. destruct (Qltb u 0) eqn:E; [apply Qle_refl|].
  apply Qltb_false in E. exact E.
Qed.

(** The clamp of line 55 changes nothing on values that are not negative. *)
Lemma clip_lower_fixed (c : list cell) :
  nonneg c -> Pd.clip_lower 0 c = c.
Proof.
  unfold Pd.clip_lower. induction c as [|[v|] r IH]; intros Hc; simpl.
  - reflexivity.
  - rewrite IH by (intros u Hu; apply Hc; right; exact Hu).
    assert (E : Qltb v 0 = false)
      by (apply Qltb_false; apply Hc; left; reflexivity).
    rewrite E. reflexivity.
  - rewrite IH by (intros u Hu; apply Hc; right; exact Hu). reflexivity.
Qed.

(** *** The second cleaning *)

Lemma clean_hourly_cleaned (lo : Z) (n : nat) (A B C : list cell) :
  length A = n -> length B = n -> length C = n ->
  Pd.ffill A = A -> Pd.ffill B = B -> Pd.ffill C = C -> nonneg C ->
  Phase2.clean_hourly
    {| Phase2.index := hours_from lo 0 n;
       Phase2.columns := [("t2m_c"%string, A); ("ws10_ms"%string, B);
                          ("ghi_wm2"%string, C)] |}
  = Some {| Phase2.index := hours_from lo 0 n;
            Phase2.columns :=
              [("t2m_c"%string, Phase2.winsorize A);
               ("ws10_ms"%string, Phase2.winsorize B);
               ("ghi_whm2"%string, Phase2.winsorize C)] |}.
Proof.
  intros HA HB HC FA FB FC Hnn.
  assert (Hreg : regular
                   {| Phase2.index := hours_from lo 0 n;
                      Phase2.columns := [("t2m_c"%string, A);
                                         ("ws10_ms"%string, B);
                                         ("ghi_wm2"%string, C)] |}).
  { split.
    - exists lo. cbn [Phase2.index]. rewrite hours_from_length. reflexivity.
    - cbn [Phase2.index Phase2.columns]. rewrite hours_from_length.
      intros kc [<-|[<-|[<-|[]]]]; assumption. }
  unfold Phase2.clean_hourly.
  rewrite (sort_index_regular _ Hreg), (asfreq_H_regular _ Hreg).
  simpl.
  rewrite !fill_gaps_is_ffill, FA, FB, FC, (clip_lower_fixed C Hnn),
    map_times_one.
  reflexivity.
Qed.

(** The cell of column [name] at row [i]. *)
Definition value_at (name : string) (i : nat) (f : Phase2.frame) : cell :=
  match Phase2.get_col name (Phase2.columns f) with
  | Some c => nth i c None
  | None => None
  end.

(** Two cells hold the same value: both null, or equal numbers. *)
Definition cells_agree (a b : cell) : Prop :=
  match a, b with
  | Some x, Some y => x == y
  | None, None => True
  | _, _ => False
  end.

Definition same_series (f1 f2 : Phase2.frame) : Prop :=
  Phase2.index f1 = Phase2.index f2
  /\ forall name i, cells_agree (value_at name i f1) (value_at name i f2).

(** C2, as stated, fails.  On its own output [clean_hourly] raises (the
    column it reads was renamed); and with the irradiance column offered
    under its raw name again, the second cleaning moves values: the
    temperature of the last hour of [five_hour_gap] is 25.93 after one
    cleaning and 25.8649 after two. *)
Lemma recleaning_drifts :
  ~ (forall df out : Phase2.frame,
        Phase2.clean_hourly df = Some out ->
        exists out2,
          (Phase2.clean_hourly out = Some out2
           \/ Phase2.clean_hourly (Phase2.as_raw out) = Some out2)
          /\ same_series out2 out).
Proof.
  intros H.
  assert (Hex : exists out,
             Phase2.clean_hourly five_hour_gap = Some out
             /\ Phase2.clean_hourly out = None
             /\ exists out2,
                  Phase2.clean_hourly (Phase2.as_raw out) = Some out2
                  /\ ~ cells_agree (value_at "t2m_c" 7 out2)
                                   (value_at "t2m_c" 7 out)).
  { eexists. split; [vm_compute; reflexivity|].
    split; [vm_compute; reflexivity|].
    eexists. split; [vm_compute; reflexivity|].
    vm_compute. intros Hq. discriminate Hq. }
  destruct Hex as (out & Hout & Hnone & out2 & Hout2 & Hdiff).
  destruct (H five_hour_gap out Hout) as (o & [Ho|Ho] & _ & Hsame).
  - rewrite Hnone in Ho. discriminate Ho.
  - rewrite Hout2 in Ho. inversion Ho; subst o. apply Hdiff, Hsame.
Qed.

Lemma cleaned_shape (idx : list Z) (g t w : list cell) (out : Phase2.frame) :
  Phase2.clean_hourly (Phase2.raw_frame idx g t w) = Some out ->
  exists lo n A B C,
    out = {| Phase2.index := hours_from lo 0 n;
             Phase2.columns := [("t2m_c"%string, A); ("ws10_ms"%string, B);
                                ("ghi_whm2"%string, C)] |}
    /\ length A = n /\ length B = n /\ length C = n
    /\ Pd.ffill A = A /\ Pd.ffill B = B /\ Pd.ffill C = C /\ nonneg C.
Proof.
  rewrite clean_hourly_raw.
  destruct (Phase2.asfreq_H _) as [df1|] eqn:E; [|discriminate].
  destruct (asfreq_sorted_raw idx g t w df1 E)
    as (G & T & W & Hdf & [[lo Hidx] Hcols]).
  rewrite Hdf in Hcols |- *. cbn [Phase2.columns Phase2.raw_frame] in *.
  cbn [Phase2.index] in Hcols.
  intros H. inversion H; subst out. clear H.
  set (n := length (Phase2.index df1)) in *.
  assert (HG : length G = n)
    by (apply (Hcols ("ghi_wm2"%string, G)); left; reflexivity).
  assert (HT : length T = n)
    by (apply (Hcols ("t2m_c"%string, T)); right; left; reflexivity).
  assert (HW : length W = n)
    by (apply (Hcols ("ws10_ms"%string, W)); right; right; left; reflexivity).
  exists lo, n. do 3 eexists. rewrite map_times_one, !fill_gaps_is_ffill.
  split; [rewrite Hidx at 1; reflexivity|].
  unfold Pd.ffill at 1 2 3.
  split; [rewrite winsorize_length, ffill_from_length; exact HT|].
  split; [rewrite winsorize_length, ffill_from_length; exact HW|].
  split; [rewrite winsorize_length; unfold Pd.clip_lower;
          rewrite length_map, ffill_from_length; exact HG|].
  split; [apply winsorize_ffill_fixed, ffill_idem|].
  split; [apply winsorize_ffill_fixed, ffill_idem|].
  split.
  - apply winsorize_ffill_fixed. unfold Pd.clip_lower.
    apply ffill_fixed_map, ffill_idem.
  - apply winsorize_nonneg, clip_lower_nonneg.
Qed.

(** C2, amended.  For the cleaned frame [out] of any raw frame: applied to
    [out] as it is, [clean_hourly] raises; applied to [out] with the
    irradiance column under its raw name, it keeps the index, the columns
    and the null pattern, and does nothing but clip every column again, to
    the 1st/99th percentiles recomputed from the cleaned column.  So the
    second cleaning returns [out] exactly when every cleaned column is
    its own winsorization. *)
Theorem recleaning_only_rewinsorizes (idx : list Z) (g t w : list cell)
    (out : Phase2.frame) :
  Phase2.clean_hourly (Phase2.raw_frame idx g t w) = Some out ->
  Phase2.clean_hourly out = None
  /\ Phase2.clean_hourly (Phase2.as_raw out)
     = Some {| Phase2.index := Phase2.index out;
               Phase2.columns :=
                 Phase2.map_cols Phase2.winsorize (Phase2.columns out) |}
  /\ null_pattern (Phase2.clean_hourly (Phase2.as_raw out))
     = null_pattern (Some out)
  /\ (Phase2.clean_hourly (Phase2.as_raw out) = Some out <->
      Phase2.map_cols Phase2.winsorize (Phase2.columns out)
      = Phase2.columns out).
Proof.
  intros Hout.
  destruct (cleaned_shape idx g t w out Hout)
    as (lo & n & A & B & C & -> & HA & HB & HC & FA & FB & FC & Hnn).
  assert (Hsecond :
            Phase2.clean_hourly
              (Phase2.as_raw
                 {| Phase2.index := hours_from lo 0 n;
                    Phase2.columns := [("t2m_c"%string, A);
                                       ("ws10_ms"%string, B);
                                       ("ghi_whm2"%string, C)] |})
            = Some {| Phase2.index := hours_from lo 0 n;
                      Phase2.columns :=
                        [("t2m_c"%string, Phase2.winsorize A);
                         ("ws10_ms"%string, Phase2.winsorize B);
                         ("ghi_whm2"%string, Phase2.winsorize C)] |})
    by (apply clean_hourly_cleaned; assumption).
  split; [|split; [|split]].
  - assert (Hreg : regular
                     {| Phase2.index := hours_from lo 0 n;
                        Phase2.columns := [("t2m_c"%string, A);
                                           ("ws10_ms"%string, B);
                                           ("ghi_whm2"%string, C)] |}).
    { split.
      - exists lo. cbn [Phase2.index]. rewrite hours_from_length. reflexivity.
      - cbn [Phase2.index Phase2.columns]. rewrite hours_from_length.
        intros kc [<-|[<-|[<-|[]]]]; assumption. }
    unfold Phase2.clean_hourly.
    rewrite (sort_index_regular _ Hreg), (asfreq_H_regular _ Hreg).
    reflexivity.
  - rewrite Hsecond. reflexivity.
  - rewrite Hsecond. unfold null_pattern. simpl.
    rewrite !winsorize_isna. reflexivity.
  - rewrite Hsecond. cbn [Phase2.index Phase2.columns].
    split; intros H.
    + injection H as H1 H2 H3. unfold Phase2.map_cols.
      cbn [List.map fst snd]. rewrite H1, H2, H3. reflexivity.
    + f_equal. f_equal. exact H.
Qed.

(** Six hours at one temperature and calm air: a series on which the second
    cleaning changes nothing. *)
Definition steady_hours : Phase2.frame :=
  Phase2.raw_frame [0; 1; 2; 3; 4; 5]%Z
    [Some 0; Some 0; Some 100; Some 100; Some 0; Some 0]
    [Some 20; Some 20; Some 20; Some 20; Some 20; Some 20]
    [Some 1; Some 1; Some 1; Some 1; Some 1; Some 1].

Lemma recleaning_only_rewinsorizes_witness :
  (exists out,
      Phase2.clean_hourly five_hour_gap = Some out
      /\ Phase2.clean_hourly out = None
      /\ null_pattern (Phase2.clean_hourly (Phase2.as_raw out))
         = null_pattern (Some out))
  /\ (exists out,
         Phase2.clean_hourly steady_hours = Some out
         /\ Phase2.clean_hourly (Phase2.as_raw out) = Some out).
Proof.
  split.
  - destruct (Phase2.clean_hourly five_hour_gap) as [out|] eqn:E;
      [|vm_compute in E; discriminate E].
    exists out. split; [reflexivity|].
    destruct (recleaning_only_rewinsorizes
                [0; 1; 2; 3; 4; 5; 6; 7]%Z
                [Some 0; None; None; None; None; None; Some 310; Some 420]
                [Some 21; Some 21; Some 22; Some 22; Some 23; Some 24;
                 Some 25; Some 26]
                [Some 2; Some 2; Some 3; Some 3; Some 2; Some 2; Some 3;
                 Some 3]
                out E) as (Hnone & _ & Hnull & _).
    split; [exact Hnone | exact Hnull].
  - destruct (Phase2.clean_hourly steady_hours) as [out|] eqn:E;
      [|vm_compute in E; discriminate E].
    exists out. split; [reflexivity|].
    destruct (recleaning_only_rewinsorizes
                [0; 1; 2; 3; 4; 5]%Z
                [Some 0; Some 0; Some 100; Some 100; Some 0; Some 0]
                [Some 20; Some 20; Some 20; Some 20; Some 20; Some 20]
                [Some 1; Some 1; Some 1; Some 1; Some 1; Some 1]
                out E) as (_ & _ & _ & Hiff).
    apply Hiff. vm_compute in E. injection E as <-. vm_compute. reflexivity.
Defined.
